(** * The OpenAPI connector plugin and its retrying transport

    A shallow embedding of
    [test-engine-core-modules/src/openapiconnector/openapiconnector.py]:
    the class [Plugin] (setup, request building, predict, the class-level
    error slot) and the class [OpenAPICustomTransport] (the retry loop and
    its back-off), followed by the properties of the connector's
    specification, each settled against these definitions.

    Conventions of the embedding.
    - Python integers are [Z]; Python floats are exact rationals [Q]. The
      only float arithmetic of the module multiplies the back-off factor by a
      power of two, which binary64 performs exactly as long as the product
      stays below 2^1024 (attempt indices up to 1023 with the factor 2.0).
    - Dictionaries are association lists in insertion order
      ([list(d.items())[0]] is the head).
    - A method that awaits, raises or touches class attributes is a function
      in the monad [M]: it takes the [World] and returns an [outcome] and the
      new [World]. Every await, lock operation, access to the error slot and
      write to standard output is appended to the world's [trace].
    - What the collaborating libraries (openapi_schema_validator, aiopenapi3,
      httpx, the remote server) do is not in this repository: it is a field
      of [Collaborators] or of the [World], never a fixed choice. *)

From Stdlib Require Import ZArith QArith Qround Qpower List String Ascii Bool Lia DecimalString.
Import ListNotations.
Set Warnings "-register-all".
Local Open Scope string_scope.
Local Open Scope Z_scope.

(** ** Python values, dictionaries and exceptions *)

Module Py.

(** JSON-shaped Python values: what [json.load] produces. *)
Inductive value : Type :=
| VNone
| VBool (b : bool)
| VInt (z : Z)
| VFloat (q : Q)
| VStr (s : string)
| VList (l : list value)
| VDict (d : list (string * value)).

Definition dict (V : Type) : Type := list (string * V).

(** [k in d] and [d[k]] / [d.get(k)]. *)
Fixpoint get {V : Type} (k : string) (d : dict V) : option V :=
  match d with
  | [] => None
  | (k', v) :: rest => if String.eqb k k' then Some v else get k rest
  end.

Definition contains {V : Type} (k : string) (d : dict V) : bool :=
  match get k d with Some _ => true | None => false end.

(** [d.update({k: v})] and [d[k] = v]: an existing key keeps its position. *)
Fixpoint update {V : Type} (k : string) (v : V) (d : dict V) : dict V :=
  match d with
  | [] => [(k, v)]
  | (k', v') :: rest =>
      if String.eqb k k' then (k, v) :: rest else (k', v') :: update k v rest
  end.

Definition keys {V : Type} (d : dict V) : list string := map fst d.

(** [type(v).__name__], as it appears in the interpreter's error messages. *)
Definition type_name (v : value) : string :=
  match v with
  | VNone => "NoneType"
  | VBool _ => "bool"
  | VInt _ => "int"
  | VFloat _ => "float"
  | VStr _ => "str"
  | VList _ => "list"
  | VDict _ => "dict"
  end.

(** [str.lower()] on the ASCII range. The module only compares lowered
    strings with the ASCII literals "post", "get", "header", "http",
    "bearer" and "basic", and no character outside ASCII lowers to a
    character of these words. *)
Definition lower_ascii (c : ascii) : ascii :=
  let n := nat_of_ascii c in
  if ((65 <=? n) && (n <=? 90))%nat then ascii_of_nat (n + 32) else c.

Fixpoint lower (s : string) : string :=
  match s with
  | EmptyString => EmptyString
  | String c rest => String (lower_ascii c) (lower rest)
  end.

(** [str(n)] and [f"{n}"] for an integer. *)
Definition str_int (z : Z) : string := NilZero.string_of_int (Z.to_int z).

(** [2 ** e] for an integer [e]: an integer when [e >= 0], the float
    [1 / 2 ** -e] otherwise. *)
Definition pow2 (e : Z) : Q := Qpower 2 e.

(** [int(x)] of a float: truncation towards zero. *)
Definition int_of_float (q : Q) : Z := Z.quot (Qnum q) (Zpos (Qden q)).

(** [range(n)]. *)
Definition range (n : Z) : list Z := map Z.of_nat (seq 0 (Z.to_nat n)).

(** httpx's transport exceptions. [ConnectError], [ReadError], [WriteError]
    and [CloseError] derive from [NetworkError]; the four timeouts derive
    from [TimeoutException]. *)
Inductive httpx_class : Type :=
| ConnectTimeout | ReadTimeout | WriteTimeout | PoolTimeout
| NetworkError | ConnectError | ReadError | WriteError | CloseError
| ProtocolError.

Inductive exn_class : Type :=
| RuntimeError
| KeyError
| TypeError
| AttributeError
| ValueError
| NotImplementedError
| HttpxError (c : httpx_class)
| RequestError       (* aiopenapi3.RequestError *)
| LibraryError.      (* any other exception class of a collaborating library *)

(** An exception: its class and [str(exception)]. *)
Inductive exn : Type := Exn (cls : exn_class) (text : string).

Definition str_exn (e : exn) : string := let 'Exn _ text := e in text.

Definition is_RequestError (e : exn) : bool :=
  match e with Exn RequestError _ => true | _ => false end.

Inductive outcome (A : Type) : Type :=
| Ok (a : A)
| Raise (e : exn).
Arguments Ok {A} a.
Arguments Raise {A} e.

(** [len(v)]. *)
Definition len (v : value) : outcome Z :=
  match v with
  | VStr s => Ok (Z.of_nat (String.length s))
  | VList l => Ok (Z.of_nat (List.length l))
  | VDict d => Ok (Z.of_nat (List.length d))
  | _ => Raise (Exn TypeError ("object of type '" ++ type_name v ++ "' has no len()"))
  end.

Definition no_attribute (v : value) (attr : string) : exn :=
  Exn AttributeError ("'" ++ type_name v ++ "' object has no attribute '" ++ attr ++ "'").

(** [list(v.items())]. *)
Definition items (v : value) : outcome (dict value) :=
  match v with
  | VDict d => Ok d
  | _ => Raise (no_attribute v "items")
  end.

(** [v.get(k, default)]. *)
Definition get_default (v : value) (k : string) (default : value) : outcome value :=
  match v with
  | VDict d => Ok (match get k d with Some x => x | None => default end)
  | _ => Raise (no_attribute v "get")
  end.

(** [http.HTTPStatus(code).name], restricted to the members the transport
    can look up (the codes of [_api_status_code]); [HTTPStatus] raises
    [ValueError] on a number that is no member. *)
Definition HTTPStatus_name (code : Z) : option string :=
  if code =? 429 then Some "TOO_MANY_REQUESTS"
  else if code =? 500 then Some "INTERNAL_SERVER_ERROR"
  else if code =? 502 then Some "BAD_GATEWAY"
  else if code =? 503 then Some "SERVICE_UNAVAILABLE"
  else if code =? 504 then Some "GATEWAY_TIMEOUT"
  else None.

End Py.
Import Py.

(** ** The world: class attributes, the remote service, observable effects *)

(** What the module reads of an [httpx.Response]. *)
Record Response : Type := mkResponse {
  status_code : Z;
  text : string
}.

(** What one dispatch through the underlying [httpx.AsyncHTTPTransport]
    produces. *)
Inductive dispatch : Type :=
| Responded (r : Response)
| Failed (e : exn).

Inductive event : Type :=
| NetworkIO (n : nat)        (* await super().handle_async_request(request), the n-th dispatch *)
| Sleep (seconds : Q)        (* await asyncio.sleep(seconds) *)
| LockAcquire                (* entering [async with Plugin._lock] *)
| LockRelease                (* leaving it *)
| ErrorRead (v : string)     (* a load of Plugin._response_error_message *)
| ErrorWrite (v : string)    (* a store to Plugin._response_error_message *)
| Print (s : string).        (* print(s) *)

(** The class attributes of [Plugin] that the request path reads or writes
    (shared by every instance), the remote service, and the trace. *)
Record World : Type := mkWorld {
  Plugin_response_error_message : string;   (* Plugin._response_error_message *)
  Plugin_api_verify : bool;                 (* Plugin._api_verify *)
  Plugin_api_rate_limit_timeout : Q;        (* Plugin._api_rate_limit_timeout *)
  Plugin_api_cert : option string;          (* Plugin._api_cert *)
  Plugin_api_retries : Z;                   (* Plugin._api_retries *)
  remote : nat -> dispatch;           (* outcome of the n-th dispatch to the server *)
  dispatched : nat;                   (* dispatches made so far *)
  trace : list event                  (* effects so far, oldest first *)
}.

(** The class attributes as the class body initialises them. *)
Definition initial_world (server : nat -> dispatch) : World :=
  mkWorld "" false 5 None 3 server 0 [].

Definition M (A : Type) : Type := World -> outcome A * World.

Definition ret {A : Type} (a : A) : M A := fun w => (Ok a, w).

Definition raise {A : Type} (e : exn) : M A := fun w => (Raise e, w).

Definition bind {A B : Type} (m : M A) (k : A -> M B) : M B :=
  fun w =>
    match m w with
    | (Ok a, w') => k a w'
    | (Raise e, w') => (Raise e, w')
    end.

Declare Scope m_scope.
Delimit Scope m_scope with m.
Notation "x <- c ;; k" := (bind c (fun x => k))
  (at level 61, c at next level, right associativity) : m_scope.
Notation "c ;; k" := (bind c (fun _ => k))
  (at level 61, right associativity) : m_scope.
Local Open Scope m_scope.

Definition emit (e : event) : M unit :=
  fun w =>
    (Ok tt,
     mkWorld (Plugin_response_error_message w) (Plugin_api_verify w) (Plugin_api_rate_limit_timeout w)
             (Plugin_api_cert w) (Plugin_api_retries w) (remote w) (dispatched w) (trace w ++ [e])).

(** [Plugin._response_error_message], loaded and stored. *)
Definition load_error : M string :=
  fun w =>
    let v := Plugin_response_error_message w in
    (Ok v,
     mkWorld v (Plugin_api_verify w) (Plugin_api_rate_limit_timeout w) (Plugin_api_cert w)
             (Plugin_api_retries w) (remote w) (dispatched w) (trace w ++ [ErrorRead v])).

Definition store_error (v : string) : M unit :=
  fun w =>
    (Ok tt,
     mkWorld v (Plugin_api_verify w) (Plugin_api_rate_limit_timeout w) (Plugin_api_cert w)
             (Plugin_api_retries w) (remote w) (dispatched w) (trace w ++ [ErrorWrite v])).

(** [await super().handle_async_request(request)]: one dispatch. *)
Definition super_handle_async_request : M Response :=
  fun w =>
    let n := dispatched w in
    let w' :=
      mkWorld (Plugin_response_error_message w) (Plugin_api_verify w) (Plugin_api_rate_limit_timeout w)
              (Plugin_api_cert w) (Plugin_api_retries w) (remote w) (S n) (trace w ++ [NetworkIO n]) in
    match remote w n with
    | Responded r => (Ok r, w')
    | Failed e => (Raise e, w')
    end.

(** ** class OpenAPICustomTransport *)

Module OpenAPICustomTransport.

Record t : Type := mk {
  _ssl_verify : bool;
  _ssl_cert : option string;
  _api_retries : Z;
  _api_backoff_factor : Q;
  _api_rate_limit_timeout : Q;
  _response_error_callback : string -> M unit
}.

(** The class attribute [_api_status_code]. *)
Definition _api_status_code : list Z := [429; 500; 502; 503; 504].

(** [__init__]: the back-off factor is not an argument and keeps the class
    default 2.0. *)
Definition __init__ (verify : bool) (cert : option string) (retries : Z)
    (rate_limit_timeout : Q) (response_error_callback : string -> M unit) : t :=
  mk verify cert retries 2 rate_limit_timeout response_error_callback.

(** [status_code and status_code == 429]. *)
Definition is_rate_limited (status_code : option Z) : bool :=
  match status_code with
  | Some c => negb (c =? 0) && (c =? 429)
  | None => false
  end.

(** The value of [backoff_timing]. The float product is computed as an
    exact rational: this is what Python computes while [attempt <= 1024] and
    the product is below 2^1024 (attempts up to 1023 with the factor 2.0);
    beyond that range Python raises OverflowError here, which this
    definition does not represent. *)
Definition backoff_timing (self : t) (attempt : Z) (status_code : option Z) : Q :=
  if is_rate_limited status_code then _api_rate_limit_timeout self
  else inject_Z (int_of_float (_api_backoff_factor self * pow2 (attempt - 1))).

Definition handle_attempt_retries (self : t) (attempt : Z) (status_code : option Z) : M unit :=
  if attempt =? _api_retries self then ret tt
  else emit (Sleep (backoff_timing self attempt status_code)).

(** The except clause: [httpx.ConnectTimeout], [httpx.ReadTimeout],
    [httpx.NetworkError] and the subclasses of the latter. *)
Definition caught (c : httpx_class) : bool :=
  match c with
  | ConnectTimeout | ReadTimeout
  | NetworkError | ConnectError | ReadError | WriteError | CloseError => true
  | WriteTimeout | PoolTimeout | ProtocolError => false
  end.

Definition status_in_list (code : Z) : bool :=
  existsb (Z.eqb code) _api_status_code.

(** How control leaves the try / except / else clauses of one iteration,
    before the finally clause runs. *)
Inductive pending : Type :=
| Fallthrough                 (* the clause ran to its end *)
| Returning (r : Response)    (* [return response] is under way *)
| Raising (e : exn).          (* an exception is propagating *)

Definition after_wait (error_message : string) (r : outcome unit * World)
    : outcome (string * pending) * World :=
  match r with
  | (Ok _, w) => (Ok (error_message, Fallthrough), w)
  | (Raise e, w) => (Ok (error_message, Raising e), w)
  end.

(** The try, except and else clauses. The result holds the value of the
    local [error_message] when the clause is left. *)
Definition try_clauses (self : t) (attempt : Z) (error_message : string)
    : M (string * pending) :=
  fun w =>
    match super_handle_async_request w with
    | (Raise (Exn (HttpxError c) msg as e), w1) =>
        if caught c then
          after_wait msg (handle_attempt_retries self attempt None w1)
        else (Ok (error_message, Raising e), w1)
    | (Raise e, w1) => (Ok (error_message, Raising e), w1)
    | (Ok response, w1) =>
        if negb (status_in_list (status_code response)) then
          (Ok (error_message, Returning response), w1)
        else
          match HTTPStatus_name (status_code response) with
          | None =>
              (Ok (error_message,
                   Raising (Exn ValueError
                              (str_int (status_code response) ++ " is not a valid HTTPStatus"))),
               w1)
          | Some name =>
              let msg :=
                "Response status code: " ++ str_int (status_code response)
                  ++ " (" ++ name ++ ")" in
              after_wait msg
                (handle_attempt_retries self attempt (Some (status_code response)) w1)
          end
    end.

Definition exceeded_message (self : t) (error_message : string) : string :=
  "Maximum retries exceeded (" ++ str_int (_api_retries self) ++ ") " ++ error_message.

(** The finally clause. It runs however the clauses above were left; when
    it raises, the exception replaces a return or an exception under way. *)
Definition finally_clause (self : t) (attempt : Z) (error_message : string)
    (p : pending) : M pending :=
  if attempt =? _api_retries self then
    _response_error_callback self (exceeded_message self error_message) ;;
    raise (Exn RuntimeError (exceeded_message self error_message))
  else
    match p with
    | Raising e => raise e
    | _ => ret p
    end.

(** One iteration of the for loop. *)
Definition iteration (self : t) (attempt : Z) (error_message : string)
    : M (string * pending) :=
  r <- try_clauses self attempt error_message ;;
  p <- finally_clause self attempt (fst r) (snd r) ;;
  ret (fst r, p).

(** The for loop over the remaining attempt indices. [None] is the value of
    a call that falls off the end of the function. *)
Fixpoint attempts (self : t) (indices : list Z) (error_message : string)
    : M (option Response) :=
  match indices with
  | [] => ret None
  | attempt :: rest =>
      r <- iteration self attempt error_message ;;
      match snd r with
      | Returning response => ret (Some response)
      | _ => attempts self rest (fst r)
      end
  end.

Definition handle_async_request (self : t) : M (option Response) :=
  attempts self (range (_api_retries self + 1)) "".

End OpenAPICustomTransport.

(** ** The aiopenapi3 objects, as far as the plugin reads them *)

Module OpenAPI.

(** A Schema Object. [enum] is an optional attribute: [None] when the
    schema has no [enum] keyword; [ref] names the schema in the document. *)
Record Schema : Type := mkSchema {
  ref : string;
  enum : option (list value)
}.

(** [parameter.in_], an enumeration whose member names are these. *)
Inductive _In : Type := query | header | path | cookie.

Definition In_name (i : _In) : string :=
  match i with
  | query => "query"
  | header => "header"
  | path => "path"
  | cookie => "cookie"
  end.

(** A Parameter Object. *)
Module Param.
Record t : Type := mk {
  name : string;
  in_ : _In;
  required : bool;
  schema_ : option Schema
}.
End Param.

Module MediaType.
Record t : Type := mk {
  schema_ : option Schema
}.
End MediaType.

(** [operation.requestBody]: the content map by media type, and what
    Python prints for that map. *)
Record RequestBody : Type := mkRequestBody {
  content : dict MediaType.t;
  content_repr : string
}.

Record Operation : Type := mkOperation {
  requestBody : option RequestBody
}.

(** The object [api._.predict_api]. *)
Record OperationRequest : Type := mkOperationRequest {
  method : string;
  operation : Operation;
  parameters : list Param.t
}.

Record SecurityScheme : Type := mkSecurityScheme {
  type_ : string;
  scheme_ : option string
}.

(** What [authenticate] stores for a scheme: a string, or a pair. *)
Inductive credential : Type :=
| Token (s : string)
| Pair (username password : value).

(** The client object. [predict_api] is the result of evaluating
    [api._.predict_api] (the lookup raises when no operation carries that
    identifier); [_security] is the credential registry. *)
Record t : Type := mk {
  predict_api : outcome OperationRequest;
  securitySchemes : dict SecurityScheme;
  _security : dict credential
}.

(** [api.authenticate] called with the keyword argument [name = c]: the
    credential is stored under the scheme name. *)
Definition authenticate (api : t) (name : string) (c : credential) : t :=
  mk (predict_api api) (securitySchemes api) (update name c (_security api)).

(** The body instance built by [schema.get_type().construct]. *)
Record Body : Type := mkBody {
  body_schema : Schema;
  body_fields : dict value
}.

End OpenAPI.

(** What the libraries outside this repository decide. *)
Record Collaborators : Type := mkCollaborators {
  (* openapi_schema_validator.validate(config, schema, cls=OAS30Validator) *)
  validate : dict value -> dict value -> outcome unit;
  (* OpenAPI.loads on json.dumps(schema) *)
  loads : dict value -> outcome OpenAPI.t;
  (* str(v) for a value that is not a string *)
  str_other : value -> string;
  (* schema.get_type().construct on the payload *)
  construct : OpenAPI.Schema -> dict value -> outcome OpenAPI.Body;
  (* the part of predict_api.request() that builds the HTTP request *)
  prepare : OpenAPI.OperationRequest -> dict value -> option OpenAPI.Body -> outcome unit;
  (* whether an exception raised while sending is re-raised as
     aiopenapi3.RequestError, and what str() gives for that error *)
  wraps_send_errors : bool;
  request_error_text : string;
  (* the part of predict_api.request() that checks the received response *)
  process : Response -> outcome unit
}.

(** ** class Plugin *)

Module Plugin.

Import OpenAPI.

(** The instance attributes. *)
Record t : Type := mk {
  _is_setup_completed : bool;
  _api_instance : option OpenAPI.t;
  _api_instance_schema : option Schema;
  _api_schema : dict value;
  _api_config : dict value
}.

(** [__init__]: the keyword arguments are kept only when both are given
    and non-empty. *)
Definition __init__ (api_schema api_config : option (dict value)) : t :=
  match api_schema, api_config with
  | Some ((_ :: _) as schema), Some ((_ :: _) as config) => mk false None None schema config
  | _, _ => mk false None None [] []
  end.

Definition _get_response_error : M string :=
  emit LockAcquire ;;
  v <- load_error ;;
  emit LockRelease ;;
  ret v.

Definition _notify_response_error (error_message : string) : M unit :=
  emit LockAcquire ;;
  store_error error_message ;;
  emit LockRelease.

(** [custom_session_factory]: the transport of a new session, built from
    the class attributes. *)
Definition custom_session_factory (w : World) : OpenAPICustomTransport.t :=
  OpenAPICustomTransport.__init__
    (Plugin_api_verify w) (Plugin_api_cert w) (Plugin_api_retries w) (Plugin_api_rate_limit_timeout w)
    _notify_response_error.

Section WithCollaborators.

Variable lib : Collaborators.

Definition _perform_validation (self : t) : bool * string :=
  match validate lib (_api_config self) (_api_schema self) with
  | Ok _ => (true, "")
  | Raise error => (false, str_exn error)
  end.

Definition is_supported (self : t) : bool := fst (_perform_validation self).

(** [str(v)]. *)
Definition str_value (v : value) : string :=
  match v with
  | VStr s => s
  | _ => str_other lib v
  end.

(** The block of [setup] that marks the first operation of the first path
    with the operation identifier. Its last statement is the only one that
    changes the schema, so the result is the schema afterwards, or the
    exception raised with the schema untouched. *)
Definition tag_first_operation (schema : dict value) : outcome (dict value) :=
  match get "paths" schema with
  | None => Raise (Exn KeyError "'paths'")
  | Some path_to_be_updated =>
      match len path_to_be_updated with
      | Raise e => Raise e
      | Ok n =>
          if 0 <? n then
            match items path_to_be_updated with
            | Raise e => Raise e
            | Ok [] => Ok schema
            | Ok ((first_path, first_api_value) :: other_paths) =>
                match len first_api_value with
                | Raise e => Raise e
                | Ok m =>
                    if 0 <? m then
                      match items first_api_value with
                      | Raise e => Raise e
                      | Ok [] => Ok schema
                      | Ok ((first_method, first_api_http_value) :: other_methods) =>
                          match first_api_http_value with
                          | VDict op =>
                              Ok (update "paths"
                                    (VDict
                                       ((first_path,
                                         VDict
                                           ((first_method,
                                             VDict (update "operationId" (VStr "predict_api") op))
                                            :: other_methods))
                                        :: other_paths))
                                    schema)
                          | _ => Raise (no_attribute first_api_http_value "update")
                          end
                      end
                    else Ok schema
                end
            end
          else Ok schema
      end
  end.

(** One turn of the loop of [_setup_api_authentication]. *)
Definition authenticate_scheme (config : dict value) (api : OpenAPI.t) (api_key : string)
    : OpenAPI.t * outcome unit :=
  match get api_key (securitySchemes api) with
  | None => (api, Raise (Exn KeyError ("'" ++ api_key ++ "'")))
  | Some scheme =>
      if (lower (type_ scheme) =? "http")%string then
        match scheme_ scheme with
        | None => (api, Raise (no_attribute VNone "lower"))
        | Some sub =>
            let authentication :=
              match get "authentication" config with
              | Some section => section
              | None => VDict []
              end in
            if (lower sub =? "bearer")%string then
              match get_default authentication "token" (VStr "") with
              | Raise e => (api, Raise e)
              | Ok api_token => (authenticate api api_key (Token (str_value api_token)), Ok tt)
              end
            else if (lower sub =? "basic")%string then
              match get_default authentication "username" (VStr "") with
              | Raise e => (api, Raise e)
              | Ok api_username =>
                  match get_default authentication "password" (VStr "") with
                  | Raise e => (api, Raise e)
                  | Ok api_password =>
                      (authenticate api api_key (Pair api_username api_password), Ok tt)
                  end
              end
            else (api, Ok tt)
        end
      else (api, Ok tt)
  end.

Fixpoint authenticate_schemes (config : dict value) (api : OpenAPI.t)
    (api_key_list : list string) : OpenAPI.t * outcome unit :=
  match api_key_list with
  | [] => (api, Ok tt)
  | api_key :: rest =>
      match authenticate_scheme config api api_key with
      | (api', Ok _) => authenticate_schemes config api' rest
      | (api', Raise e) => (api', Raise e)
      end
  end.

(** [_setup_api_authentication]: the client afterwards, and whether the
    method raised. *)
Definition _setup_api_authentication (config : dict value) (api : OpenAPI.t)
    : OpenAPI.t * outcome unit :=
  authenticate_schemes config api (keys (securitySchemes api)).

(** [setup]: the instance afterwards and the returned pair. *)
Definition setup (self : t) : t * (bool * string) :=
  match _perform_validation self with
  | (false, error_message) => (self, (false, error_message))
  | (true, _) =>
      match tag_first_operation (_api_schema self) with
      | Raise exception => (self, (false, str_exn exception))
      | Ok schema =>
          let self1 :=
            mk (_is_setup_completed self) (_api_instance self) (_api_instance_schema self)
               schema (_api_config self) in
          match loads lib schema with
          | Raise exception => (self1, (false, str_exn exception))
          | Ok api =>
              match _setup_api_authentication (_api_config self) api with
              | (api', Raise exception) =>
                  (mk (_is_setup_completed self) (Some api') (_api_instance_schema self)
                      schema (_api_config self),
                   (false, str_exn exception))
              | (api', Ok _) =>
                  (mk true (Some api') (_api_instance_schema self) schema (_api_config self),
                   (true, ""))
              end
          end
      end
  end.

(** [self._api_instance._.predict_api]. *)
Definition the_predict_api (self : t) : outcome OperationRequest :=
  match _api_instance self with
  | None => Raise (no_attribute VNone "_")
  | Some api => predict_api api
  end.

(** [self._api_instance._.predict_api.operation.requestBody.content],
    with the request body it belongs to. *)
Definition the_request_body (self : t) : outcome RequestBody :=
  match the_predict_api self with
  | Raise e => Raise e
  | Ok op =>
      match requestBody (operation op) with
      | None => Raise (no_attribute VNone "content")
      | Some body => Ok body
      end
  end.

(** [content[ct].schema_]. *)
Definition content_schema (ct : string) (c : dict MediaType.t) : outcome (option Schema) :=
  match get ct c with
  | Some media => Ok (MediaType.schema_ media)
  | None => Raise (Exn KeyError ("'" ++ ct ++ "'"))
  end.

Definition get_schema_content (self : t) : outcome (option Schema) :=
  match the_request_body self with
  | Raise e => Raise e
  | Ok body =>
      if contains "application/json" (content body) then
        content_schema "application/json" (content body)
      else if contains "multipart/form-data" (content body) then
        content_schema "multipart/form-data" (content body)
      else if contains "application/x-www-form-urlencoded" (content body) then
        content_schema "application/x-www-form-urlencoded" (content body)
      else Raise (Exn NotImplementedError (content_repr body))
  end.

(** The loop of [make_requests] that fills [headers]. *)
Fixpoint populate_headers (ps : list Param.t) (headers : dict value)
    : outcome (dict value) :=
  match ps with
  | [] => Ok headers
  | parameter :: rest =>
      if (lower (In_name (Param.in_ parameter)) =? "header")%string && Param.required parameter then
        match Param.schema_ parameter with
        | None => Raise (no_attribute VNone "enum")
        | Some schema =>
            match enum schema with
            | None => Raise (Exn TypeError "object of type 'NoneType' has no len()")
            | Some [] => populate_headers rest headers
            | Some (first :: _) =>
                populate_headers rest (update (Param.name parameter) first headers)
            end
        end
      else populate_headers rest headers
  end.

Definition payload : dict value :=
  [("age", VInt 1); ("gender", VInt 2); ("race", VInt 3); ("income", VInt 4);
   ("employment", VInt 5); ("employment_length", VInt 6); ("total_donated", VInt 7);
   ("num_donation", VInt 8)].

(** [self._api_instance_schema.get_type().construct] on the payload. *)
Definition construct_body (schema : option Schema) : outcome Body :=
  match schema with
  | None => Raise (no_attribute VNone "get_type")
  | Some s => construct lib s payload
  end.

(** What reaches the caller of the session's [send] when the transport
    raised [e]. *)
Definition send_error (e : exn) : exn :=
  if wraps_send_errors lib then Exn RequestError (request_error_text lib) else e.

(** [await predict_api.request(parameters=..., data=...)], of which the
    third component [result] is kept: the request is built, a session is
    made by [custom_session_factory], the request goes through the
    session's transport, and the response is checked. A transport that
    returns no response makes httpx fail on the missing object. *)
Definition request (op : OperationRequest) (params : dict value) (data : option Body)
    : M Response :=
  fun w =>
    match prepare lib op params data with
    | Raise e => (Raise e, w)
    | Ok _ =>
        match OpenAPICustomTransport.handle_async_request (custom_session_factory w) w with
        | (Raise e, w1) => (Raise (send_error e), w1)
        | (Ok None, w1) => (Raise (send_error (no_attribute VNone "stream")), w1)
        | (Ok (Some response), w1) =>
            match process lib response with
            | Raise e => (Raise e, w1)
            | Ok _ => (Ok response, w1)
            end
        end
    end.

Definition set_api_instance_schema (self : t) (schema : option Schema) : t :=
  mk (_is_setup_completed self) (_api_instance self) schema (_api_schema self)
     (_api_config self).

(** [make_requests]: the outcome, the instance afterwards, the world
    afterwards. *)
Definition make_requests (self : t) (w : World) : outcome Response * t * World :=
  match the_predict_api self with
  | Raise e => (Raise e, self, w)
  | Ok op =>
      if (lower (method op) =? "post")%string then
        match get_schema_content self with
        | Raise e => (Raise e, self, w)
        | Ok schema =>
            let self' := set_api_instance_schema self schema in
            match populate_headers (parameters op) [] with
            | Raise e => (Raise e, self', w)
            | Ok headers =>
                match construct_body schema with
                | Raise e => (Raise e, self', w)
                | Ok body =>
                    let (result, w') := request op headers (Some body) w in
                    (result, self', w')
                end
            end
        end
      else if (lower (method op) =? "get")%string then
        let (result, w') := request op payload None w in
        (result, self, w')
      else (Raise (Exn RuntimeError "Unexpected api method"), self, w)
  end.

(** [predict]: the value returned to the caller (or the exception), the
    instance afterwards, the world afterwards. *)
Definition predict (self : t) (data : value) (w : World) : outcome value * t * World :=
  match make_requests self w with
  | (Ok responses, self', w1) =>
      let (_, w2) := emit (Print (text responses)) w1 in
      (Ok VNone, self', w2)
  | (Raise e, self', w1) =>
      if is_RequestError e then
        let (message, w2) := load_error w1 in
        match message with
        | Ok m => (Raise (Exn RuntimeError m), self', w2)
        | Raise e' => (Raise e', self', w2)
        end
      else (Raise e, self', w1)
  end.

End WithCollaborators.

End Plugin.

(** * Vocabulary of the properties *)

Import OpenAPICustomTransport.

(** ** Traces, dispatches and worlds *)

(** The seconds slept by the events of a trace, in order. *)
Fixpoint sleeps (tr : list event) : list Q :=
  match tr with
  | [] => []
  | Sleep d :: rest => d :: sleeps rest
  | _ :: rest => sleeps rest
  end.

(** The status handed to [handle_attempt_retries] after a dispatch. *)
Definition status_of (d : dispatch) : option Z :=
  match d with
  | Responded r => Some (status_code r)
  | Failed _ => None
  end.

(** The dispatches after which the loop goes on to another attempt, with
    the text the loop stores in [error_message]: a caught network failure
    (its own text), or a response whose status is in [_api_status_code]. *)
Definition failure_message (d : dispatch) : option string :=
  match d with
  | Failed (Exn (HttpxError c) msg) => if caught c then Some msg else None
  | Failed _ => None
  | Responded r =>
      if status_in_list (status_code r) then
        match HTTPStatus_name (status_code r) with
        | Some name =>
            Some ("Response status code: " ++ str_int (status_code r) ++ " (" ++ name ++ ")")
        | None => None
        end
      else None
  end.

(** The value of the local [error_message] when the finally clause of an
    iteration starts: the text of the failure after a retryable failure,
    the value before the iteration otherwise. *)
Definition message_after (error_message : string) (d : dispatch) : string :=
  match failure_message d with
  | Some m => m
  | None => error_message
  end.

(** A world after one dispatch. *)
Definition dispatched_once (w : World) : World := snd (super_handle_async_request w).

(** [w'] is [w] after [n] more dispatches, with the class attributes
    untouched. *)
Definition advanced (w w' : World) (n : nat) : Prop :=
  remote w' = remote w
  /\ dispatched w' = (dispatched w + n)%nat
  /\ Plugin_response_error_message w' = Plugin_response_error_message w
  /\ Plugin_api_retries w' = Plugin_api_retries w.

(** The lock discipline, checked along a trace. The state is [Some held]
    while the discipline has been kept, [None] once it was broken: the slot
    is read and written only with the lock held, no network dispatch and no
    sleep happens with the lock held, the lock is acquired only when free
    and released only when held. *)
Definition lock_step (state : option bool) (e : event) : option bool :=
  match state with
  | None => None
  | Some held =>
      match e with
      | LockAcquire => if held then None else Some true
      | LockRelease => if held then Some false else None
      | ErrorRead _ | ErrorWrite _ => if held then Some true else None
      | NetworkIO _ | Sleep _ => if held then None else Some false
      | Print _ => Some held
      end
  end.

Definition discipline (tr : list event) : option bool :=
  fold_left lock_step tr (Some false).

(** ** The specification's wording *)

(** The reason phrases of the retryable statuses, as the specification
    words the message: "Response status code: <code> (<reason phrase>)". *)
Definition spec_reason_phrase (code : Z) : string :=
  if code =? 429 then "Too Many Requests"
  else if code =? 500 then "Internal Server Error"
  else if code =? 502 then "Bad Gateway"
  else if code =? 503 then "Service Unavailable"
  else if code =? 504 then "Gateway Timeout"
  else "".

Definition spec_exhausted_message (retries code : Z) : string :=
  "Maximum retries exceeded (" ++ str_int retries ++ ") Response status code: "
    ++ str_int code ++ " (" ++ spec_reason_phrase code ++ ")".

Section Vocabulary.

Import OpenAPI.

Variable lib : Collaborators.

(** The resolution in the specification's words: scan the three media
    types in this order and take the first one the content map declares. *)
Definition spec_priority : list string :=
  ["application/json"; "multipart/form-data"; "application/x-www-form-urlencoded"].

Definition spec_content_type (c : dict MediaType.t) : option string :=
  find (fun ct => contains ct c) spec_priority.

(** The part of [make_requests] before the call of [request]: the instance
    afterwards, and the arguments of the call (or the exception raised
    before it). *)
Definition build (self : Plugin.t)
    : Plugin.t * outcome (OperationRequest * dict value * option Body) :=
  match Plugin.the_predict_api self with
  | Raise e => (self, Raise e)
  | Ok op =>
      if (lower (method op) =? "post")%string then
        match Plugin.get_schema_content self with
        | Raise e => (self, Raise e)
        | Ok schema =>
            match Plugin.populate_headers (parameters op) [] with
            | Raise e => (Plugin.set_api_instance_schema self schema, Raise e)
            | Ok headers =>
                match Plugin.construct_body lib schema with
                | Raise e => (Plugin.set_api_instance_schema self schema, Raise e)
                | Ok body =>
                    (Plugin.set_api_instance_schema self schema, Ok (op, headers, Some body))
                end
            end
        end
      else if (lower (method op) =? "get")%string then (self, Ok (op, Plugin.payload, None))
      else (self, Raise (Exn RuntimeError "Unexpected api method"))
  end.

(** The configuration's authentication entry is absent or a section. *)
Definition authentication_is_section (config : dict value) : bool :=
  match get "authentication" config with
  | None | Some (VDict _) => true
  | Some _ => false
  end.

(** A field of [config.authentication], the empty string when the section
    or the field is absent. *)
Definition authentication_field (config : dict value) (k : string) : value :=
  match get "authentication" config with
  | Some (VDict section) =>
      match get k section with
      | Some v => v
      | None => VStr ""
      end
  | _ => VStr ""
  end.

(** An http scheme names its sub-scheme. *)
Definition names_its_scheme (s : SecurityScheme) : bool :=
  if (lower (type_ s) =? "http")%string then
    match scheme_ s with Some _ => true | None => false end
  else true.

(** The credential registered for a scheme, if any. *)
Definition credential_for (config : dict value) (s : SecurityScheme) : option credential :=
  if (lower (type_ s) =? "http")%string then
    match scheme_ s with
    | Some sub =>
        if (lower sub =? "bearer")%string then
          Some (Token (Plugin.str_value lib (authentication_field config "token")))
        else if (lower sub =? "basic")%string then
          Some (Pair (authentication_field config "username")
                     (authentication_field config "password"))
        else None
    | None => None
    end
  else None.

Definition registered (config : dict value) (api : OpenAPI.t) (name : string)
    (s : SecurityScheme) : OpenAPI.t :=
  match credential_for config s with
  | Some c => authenticate api name c
  | None => api
  end.

End Vocabulary.

(** ** Inputs of the examples *)

(** A server that answers 503 three times, then 200. *)
Definition three_failures_then_ok (n : nat) : dispatch :=
  if (n <? 3)%nat then Responded (mkResponse 503 "")
  else Responded (mkResponse 200 "prediction").

(** Collaborators that accept everything: the validator passes, the
    document loads to the given client, requests are built and responses
    accepted, and send errors are wrapped in aiopenapi3.RequestError. *)
Definition accepting (api : OpenAPI.t) : Collaborators :=
  mkCollaborators
    (fun _ _ => Ok tt) (fun _ => Ok api) type_name
    (fun schema fields => Ok (OpenAPI.mkBody schema fields))
    (fun _ _ _ => Ok tt) true "RequestError" (fun _ => Ok tt).

(** A client whose operation is a POST with a JSON body and no parameters. *)
Definition json_post_api : OpenAPI.t :=
  OpenAPI.mk
    (Ok (OpenAPI.mkOperationRequest "post"
           (OpenAPI.mkOperation
              (Some (OpenAPI.mkRequestBody
                       [("application/json",
                         OpenAPI.MediaType.mk (Some (OpenAPI.mkSchema "Features" None)))]
                       "{'application/json': MediaType}")))
           []))
    [] [].

Definition always (code : Z) (body : string) : nat -> dispatch :=
  fun _ => Responded (mkResponse code body).

(** A contract with one POST operation, and a configuration with a token. *)
Definition one_post_schema : dict value :=
  [("openapi", VStr "3.0.3");
   ("paths", VDict [("/predict", VDict [("post", VDict [("tags", VList [])])])])].

Definition token_config : dict value :=
  [("authentication", VDict [("token", VStr "secret")])].

(** The instance after a successful [setup]. *)
Definition ready : Plugin.t :=
  fst (Plugin.setup (accepting json_post_api)
         (Plugin.__init__ (Some one_post_schema) (Some token_config))).

(** A server whose first four answers are 500 and whose fifth dispatch
    fails with a write timeout, which the transport does not catch. *)
Definition four_failures_then_write_timeout (n : nat) : dispatch :=
  if (n <? 4)%nat then Responded (mkResponse 500 "")
  else Failed (Exn (HttpxError WriteTimeout) "write timed out").

(** A second instance, set up from its own contract and configuration. *)
Definition second_instance : Plugin.t :=
  fst (Plugin.setup (accepting json_post_api)
         (Plugin.__init__ (Some (("info", VDict []) :: one_post_schema)) (Some token_config))).

(** A client whose POST operation declares a body of type text/plain only. *)
Definition text_plain_api : OpenAPI.t :=
  OpenAPI.mk
    (Ok (OpenAPI.mkOperationRequest "POST"
           (OpenAPI.mkOperation
              (Some (OpenAPI.mkRequestBody
                       [("text/plain",
                         OpenAPI.MediaType.mk (Some (OpenAPI.mkSchema "Text" None)))]
                       "{'text/plain': MediaType}")))
           []))
    [] [].

(** A client whose POST operation has one required header parameter, with
    the given schema. *)
Definition header_api (schema : OpenAPI.Schema) : OpenAPI.t :=
  OpenAPI.mk
    (Ok (OpenAPI.mkOperationRequest "post"
           (OpenAPI.mkOperation
              (Some (OpenAPI.mkRequestBody
                       [("application/json",
                         OpenAPI.MediaType.mk (Some (OpenAPI.mkSchema "Features" None)))]
                       "{'application/json': MediaType}")))
           [OpenAPI.Param.mk "X-Api-Version" OpenAPI.header true (Some schema)]))
    [] [].

(** Collaborators whose validator passes and whose loader rejects the
    document. *)
Definition rejecting_loader : Collaborators :=
  mkCollaborators
    (fun _ _ => Ok tt) (fun _ => Raise (Exn LibraryError "info: field required")) type_name
    (fun schema fields => Ok (OpenAPI.mkBody schema fields))
    (fun _ _ _ => Ok tt) true "RequestError" (fun _ => Ok tt).

(** Collaborators whose validator rejects the configuration. *)
Definition rejecting_validator : Collaborators :=
  mkCollaborators
    (fun _ _ => Raise (Exn LibraryError "'token' is a required property"))
    (fun _ => Ok json_post_api) type_name
    (fun schema fields => Ok (OpenAPI.mkBody schema fields))
    (fun _ _ _ => Ok tt) true "RequestError" (fun _ => Ok tt).

(** A client that declares a bearer scheme, and a configuration whose
    authentication entry is a string, not a section. *)
Definition bearer_api : OpenAPI.t :=
  OpenAPI.mk (OpenAPI.predict_api json_post_api)
    [("bearerAuth", OpenAPI.mkSecurityScheme "http" (Some "bearer"))] [].

Definition flat_config : dict value := [("authentication", VStr "secret")].

(** A client that declares a bearer scheme, a basic scheme and an API key
    scheme; a configuration with a token only. *)
Definition three_schemes_api : OpenAPI.t :=
  OpenAPI.mk (OpenAPI.predict_api json_post_api)
    [("bearerAuth", OpenAPI.mkSecurityScheme "http" (Some "Bearer"));
     ("basicAuth", OpenAPI.mkSecurityScheme "HTTP" (Some "basic"));
     ("apiKeyAuth", OpenAPI.mkSecurityScheme "apiKey" None)]
    [].

(** * The delimiter serializer

    [test-engine-core-modules/src/delimiterserializer/delimiterserializer.py].
    The file system and the [csv] module are outside the repository: what
    [open], [csv.Sniffer().sniff] and [csv.reader] do is a field of
    [Environment]. *)

Module DelimiterSerializer.

(** The members of [DelimiterType] the module names. *)
Inductive DelimiterType : Type := COMMA | TAB | SEMICOLON | PIPE | SPACE | COLON.

(** The tab character. *)
Definition tab : string := String (ascii_of_nat 9) EmptyString.

Definition supported_separated_values_list : list (DelimiterType * string) :=
  [(COMMA, ","); (TAB, tab); (SEMICOLON, ";"); (PIPE, "|"); (SPACE, " "); (COLON, ":")].

(** [DelimiterMetadata(list_data, detected_delimiter_tuple, data_path)]. *)
Record DelimiterMetadata : Type := mkDelimiterMetadata {
  data : list (list string);
  delimiter : DelimiterType * string;
  path : string
}.

Record Environment : Type := mkEnvironment {
  (* open(data_path, "r") followed by reading the whole file *)
  read_file : string -> outcome string;
  (* csv.Sniffer().sniff(sample).delimiter *)
  sniff : string -> outcome string;
  (* list(csv.reader(text_file, delimiter=d)) on the whole file *)
  reader : string -> string -> outcome (list (list string))
}.

(** The loop over the supported list: the first entry whose character is
    the detected delimiter. *)
Fixpoint detect (d : string) (supported : list (DelimiterType * string))
    : option (DelimiterType * string) :=
  match supported with
  | [] => None
  | item :: rest => if String.eqb d (snd item) then Some item else detect d rest
  end.

Definition deserialize_data (env : Environment) (data_path : string)
    : outcome DelimiterMetadata :=
  match read_file env data_path with
  | Raise e => Raise e
  | Ok text_file =>
      match sniff env (substring 0 4096 text_file) with
      | Raise e => Raise e
      | Ok dialect_delimiter =>
          match detect dialect_delimiter supported_separated_values_list with
          | None => Raise (Exn ValueError "The delimiter is not supported.")
          | Some detected_delimiter_tuple =>
              match reader env text_file dialect_delimiter with
              | Raise e => Raise e
              | Ok list_data =>
                  Ok (mkDelimiterMetadata list_data detected_delimiter_tuple data_path)
              end
          end
      end
  end.

End DelimiterSerializer.

(** * Vocabulary of the further properties *)

(** The first operation of the first path of a contract, when the
    document has that shape. *)
Definition first_operation (schema : dict value) : option (dict value) :=
  match get "paths" schema with
  | Some (VDict ((_, VDict ((_, VDict op) :: _)) :: _)) => Some op
  | _ => None
  end.

(** The test of the header loop: a header parameter that is required. *)
Definition is_required_header (p : OpenAPI.Param.t) : bool :=
  (lower (OpenAPI.In_name (OpenAPI.Param.in_ p)) =? "header")%string
  && OpenAPI.Param.required p.

(** A server that answers 503 once, then 200. *)
Definition one_failure_then_ok (n : nat) : dispatch :=
  if (n <? 1)%nat then Responded (mkResponse 503 "")
  else Responded (mkResponse 200 "prediction").

(** A server on which every dispatch fails with a write timeout. *)
Definition always_write_timeout : nat -> dispatch :=
  fun _ => Failed (Exn (HttpxError WriteTimeout) "write timed out").

(** A client whose operation uses the given method and has no body. *)
Definition method_api (m : string) : OpenAPI.t :=
  OpenAPI.mk (Ok (OpenAPI.mkOperationRequest m (OpenAPI.mkOperation None) [])) [] [].

(** A file system with one comma-separated file, a sniffer that reports
    the first of the candidate characters it finds, and a reader that
    splits nothing (one row holding the whole text). *)
Definition one_file (name content : string) : string -> outcome string :=
  fun p => if String.eqb p name then Ok content
           else Raise (Exn LibraryError "No such file or directory").

Fixpoint first_candidate (s : string) : outcome string :=
  match s with
  | EmptyString => Raise (Exn LibraryError "Could not determine delimiter")
  | String c rest =>
      if existsb (Ascii.eqb c) ["," ; "~"; ";"; "|"; ":"]%char then Ok (String c EmptyString)
      else first_candidate rest
  end.

Definition example_environment (name content : string) : DelimiterSerializer.Environment :=
  DelimiterSerializer.mkEnvironment (one_file name content) first_candidate
    (fun text _ => Ok [[text]]).

(** A configuration whose authentication entry is null. *)
Definition null_config : dict value := [("authentication", VNone)].

(** A client that declares an http scheme without a sub-scheme. *)
Definition schemeless_api : OpenAPI.t :=
  OpenAPI.mk (OpenAPI.predict_api json_post_api)
    [("plainAuth", OpenAPI.mkSecurityScheme "http" None)] [].

(** A client that declares a bearer, a basic, a digest and an API key
    scheme. *)
Definition four_schemes_api : OpenAPI.t :=
  OpenAPI.mk (OpenAPI.predict_api json_post_api)
    [("bearerAuth", OpenAPI.mkSecurityScheme "http" (Some "Bearer"));
     ("basicAuth", OpenAPI.mkSecurityScheme "HTTP" (Some "basic"));
     ("digestAuth", OpenAPI.mkSecurityScheme "http" (Some "digest"));
     ("apiKeyAuth", OpenAPI.mkSecurityScheme "apiKey" None)]
    [("digestAuth", OpenAPI.Token "kept")].

(** * Properties *)

(** ** Back-off delays *)

Lemma int_of_float_floor (q : Q) : (0 <= q)%Q -> int_of_float q = Qfloor q.
Proof.
  destruct q as [n d]. unfold Qle, int_of_float, Qfloor. simpl. intros H.
  apply Z.quot_div_nonneg; lia.
Qed.

Lemma pow2_nonneg (e : Z) : (0 <= pow2 e)%Q.
Proof.
  unfold pow2. apply Qpower_0_le. discriminate.
Qed.

Lemma is_rate_limited_iff (status_code : option Z) :
  is_rate_limited status_code = true <-> status_code = Some 429.
Proof.
  destruct status_code as [c|]; simpl.
  - split.
    + intros H. apply andb_true_iff in H. destruct H as [_ H].
      apply Z.eqb_eq in H. now subst.
    + intros H. inversion H. reflexivity.
  - split; discriminate.
Qed.

(** C4. On an attempt that is not the last one ([attempt < _api_retries])
    [handle_attempt_retries] sleeps exactly once: for [_api_rate_limit_timeout]
    seconds when the status is 429, whatever the attempt index, and for
    [floor(_api_backoff_factor * 2^(attempt - 1))] seconds otherwise (the
    attempt index counted from zero), as long as the float product exists:
    the attempt index is at most 1024 (so that [2 ** (attempt - 1)] converts
    to a float) and the product is below 2^1024 (beyond, Python raises
    OverflowError in place of sleeping, which the rational model does not
    show). On the last attempt ([attempt = _api_retries]) it does not sleep.
    With the defaults (three retries, factor 2.0) the delays at attempts 0,
    1, 2 are 1, 2 and 4 seconds, and a request whose four attempts all fail
    with status 503 sleeps 1, 2, 4 seconds in all (5, 5, 5 when they fail
    with 429). *)
Theorem backoff_delay_per_attempt
    (self : OpenAPICustomTransport.t) (attempt : Z) (status : option Z) (w : World) :
  (0 <= _api_backoff_factor self)%Q ->
  0 <= attempt < OpenAPICustomTransport._api_retries self ->
  (status = Some 429 ->
     handle_attempt_retries self attempt status w
     = emit (Sleep (OpenAPICustomTransport._api_rate_limit_timeout self)) w)
  /\ (status <> Some 429 ->
      attempt <= 1024 ->
      (_api_backoff_factor self * 2 ^ (attempt - 1) < 2 ^ 1024)%Q ->
      handle_attempt_retries self attempt status w
      = emit (Sleep (inject_Z (Qfloor (_api_backoff_factor self * 2 ^ (attempt - 1))))) w)
  /\ handle_attempt_retries self (OpenAPICustomTransport._api_retries self) status w = (Ok tt, w)
  /\ (forall server,
        let t := Plugin.custom_session_factory (initial_world server) in
        status <> Some 429 ->
        backoff_timing t 0 status = 1%Q
        /\ backoff_timing t 1 status = 2%Q
        /\ backoff_timing t 2 status = 4%Q)
  /\ sleeps (trace (snd (handle_async_request
                          (Plugin.custom_session_factory
                             (initial_world (fun _ => Responded (mkResponse 503 ""))))
                          (initial_world (fun _ => Responded (mkResponse 503 ""))))))
     = [1%Q; 2%Q; 4%Q]
  /\ sleeps (trace (snd (handle_async_request
                          (Plugin.custom_session_factory
                             (initial_world (fun _ => Responded (mkResponse 429 ""))))
                          (initial_world (fun _ => Responded (mkResponse 429 ""))))))
     = [5%Q; 5%Q; 5%Q].
Proof.
  intros Hbf Hatt.
  assert (Hne : (attempt =? OpenAPICustomTransport._api_retries self) = false)
    by (apply Z.eqb_neq; lia).
  refine (conj _ (conj _ (conj _ (conj _ (conj _ _))))).
  - intros ->. unfold handle_attempt_retries, backoff_timing. rewrite Hne.
    reflexivity.
  - intros Hs _ _. unfold handle_attempt_retries, backoff_timing. rewrite Hne.
    destruct (is_rate_limited status) eqn:E.
    + apply is_rate_limited_iff in E. contradiction.
    + rewrite int_of_float_floor; [reflexivity|].
      apply Qmult_le_0_compat; [assumption | apply pow2_nonneg].
  - unfold handle_attempt_retries. rewrite Z.eqb_refl. reflexivity.
  - intros server t Hs. unfold backoff_timing.
    destruct (is_rate_limited status) eqn:E;
      [apply is_rate_limited_iff in E; contradiction | repeat split].
  - vm_compute. reflexivity.
  - vm_compute. reflexivity.
Qed.

Lemma backoff_delay_per_attempt_witness :
  handle_attempt_retries
    (Plugin.custom_session_factory (initial_world (fun _ => Responded (mkResponse 500 ""))))
    1 (Some 500) (initial_world (fun _ => Responded (mkResponse 500 "")))
  = emit (Sleep 2) (initial_world (fun _ => Responded (mkResponse 500 ""))).
Proof.
  refine (proj1 (proj2 (backoff_delay_per_attempt
                          (Plugin.custom_session_factory
                             (initial_world (fun _ => Responded (mkResponse 500 ""))))
                          1 (Some 500)
                          (initial_world (fun _ => Responded (mkResponse 500 ""))) _ _)) _ _ _).
  - vm_compute. discriminate.
  - vm_compute. split; [discriminate | reflexivity].
  - discriminate.
  - vm_compute. discriminate.
  - vm_compute. reflexivity.
Defined.

(** ** One iteration of the retry loop *)

Lemma status_in_list_named (code : Z) :
  status_in_list code = true -> exists name, HTTPStatus_name code = Some name.
Proof.
  unfold status_in_list, HTTPStatus_name, _api_status_code. simpl.
  destruct (code =? 429); [eauto|].
  destruct (code =? 500); [eauto|].
  destruct (code =? 502); [eauto|].
  destruct (code =? 503); [eauto|].
  destruct (code =? 504); [eauto|].
  discriminate.
Qed.

Lemma status_in_list_iff (code : Z) :
  status_in_list code = true <-> In code [429; 500; 502; 503; 504].
Proof.
  unfold status_in_list, _api_status_code. rewrite existsb_exists. split.
  - intros [x [Hin Heq]]. apply Z.eqb_eq in Heq. now subst.
  - intros Hin. exists code. split; [assumption | apply Z.eqb_refl].
Qed.

Lemma failure_message_response (r : Response) :
  status_in_list (status_code r) = true ->
  exists name,
    HTTPStatus_name (status_code r) = Some name
    /\ failure_message (Responded r)
       = Some ("Response status code: " ++ str_int (status_code r) ++ " (" ++ name ++ ")").
Proof.
  intros H. destruct (status_in_list_named _ H) as [name Hn].
  exists name. split; [assumption|]. simpl. now rewrite H, Hn.
Qed.

Lemma dispatched_once_eq (w : World) :
  dispatched_once w
  = mkWorld (Plugin_response_error_message w) (Plugin_api_verify w) (Plugin_api_rate_limit_timeout w)
            (Plugin_api_cert w) (Plugin_api_retries w) (remote w) (S (dispatched w))
            (trace w ++ [NetworkIO (dispatched w)]).
Proof.
  unfold dispatched_once, super_handle_async_request.
  destruct (remote w (dispatched w)); reflexivity.
Qed.

Ltac world_cases w :=
  destruct w as [slot verify rate cert retries server sent tr]; simpl in *.

(** Not the last attempt, a retryable failure: the loop sleeps and goes on,
    with the failure's text in [error_message]. *)
Lemma iteration_goes_on (self : OpenAPICustomTransport.t) (attempt : Z)
    (error_message m : string) (w : World) :
  attempt <> _api_retries self ->
  failure_message (remote w (dispatched w)) = Some m ->
  iteration self attempt error_message w
  = (Ok (m, Fallthrough),
     snd (emit (Sleep (backoff_timing self attempt (status_of (remote w (dispatched w)))))
            (dispatched_once w))).
Proof.
  intros Hne Hm. apply Z.eqb_neq in Hne.
  rewrite dispatched_once_eq.
  unfold iteration, bind, try_clauses, super_handle_async_request.
  world_cases w.
  destruct (server sent) as [r | [cls msg]]; simpl in *.
  - destruct (status_in_list (status_code r)); [|discriminate]. simpl.
    destruct (HTTPStatus_name (status_code r)) as [name|]; [|discriminate].
    inversion Hm; subst m.
    unfold after_wait, handle_attempt_retries, finally_clause. rewrite Hne. simpl.
    rewrite ?Hne. reflexivity.
  - destruct cls; try discriminate.
    destruct (caught c); [|discriminate].
    inversion Hm; subst m.
    unfold after_wait, handle_attempt_retries, finally_clause. rewrite Hne. simpl.
    rewrite ?Hne. reflexivity.
Qed.

(** Not the last attempt, a response whose status is not in the list: the
    response is returned as it is, with nothing slept or stored. *)
Lemma iteration_returns (self : OpenAPICustomTransport.t) (attempt : Z)
    (error_message : string) (r : Response) (w : World) :
  attempt <> _api_retries self ->
  remote w (dispatched w) = Responded r ->
  status_in_list (status_code r) = false ->
  iteration self attempt error_message w
  = (Ok (error_message, Returning r), dispatched_once w).
Proof.
  intros Hne Hr Hs. apply Z.eqb_neq in Hne.
  rewrite dispatched_once_eq.
  unfold iteration, bind, try_clauses, super_handle_async_request.
  world_cases w. rewrite Hr. simpl. rewrite Hs. simpl.
  unfold finally_clause. rewrite Hne. reflexivity.
Qed.

Lemma iteration_last (self : OpenAPICustomTransport.t) (attempt : Z)
    (error_message : string) (w : World) :
  _response_error_callback self = Plugin._notify_response_error ->
  attempt = _api_retries self ->
  iteration self attempt error_message w
  = (Raise (Exn RuntimeError
              (exceeded_message self (message_after error_message (remote w (dispatched w))))),
     snd (Plugin._notify_response_error
            (exceeded_message self (message_after error_message (remote w (dispatched w))))
            (dispatched_once w))).
Proof.
  intros Hcb Heq. assert (He : (attempt =? _api_retries self) = true)
    by (apply Z.eqb_eq; assumption).
  rewrite dispatched_once_eq.
  unfold iteration, bind, try_clauses, super_handle_async_request, message_after.
  world_cases w.
  destruct (server sent) as [r | [cls msg]]; simpl.
  - destruct (status_in_list (status_code r)); simpl.
    + destruct (HTTPStatus_name (status_code r)) as [name|]; simpl.
      * unfold after_wait, handle_attempt_retries, finally_clause. rewrite He. simpl.
        rewrite ?He, Hcb. reflexivity.
      * unfold finally_clause. rewrite He, Hcb. reflexivity.
    + unfold finally_clause. rewrite He, Hcb. reflexivity.
  - destruct cls; simpl; try (unfold finally_clause; rewrite He, Hcb; reflexivity).
    destruct (caught c); simpl.
    + unfold after_wait, handle_attempt_retries, finally_clause. rewrite He. simpl.
      rewrite ?He, Hcb. reflexivity.
    + unfold finally_clause. rewrite He, Hcb. reflexivity.
Qed.

(** ** The retry loop *)

Lemma advanced_refl (w : World) : advanced w w 0.
Proof.
  unfold advanced. rewrite Nat.add_0_r. auto.
Qed.

Lemma advanced_step (self : OpenAPICustomTransport.t) (attempt : Z) (s : option Z) (w : World) :
  advanced w (snd (emit (Sleep (backoff_timing self attempt s)) (dispatched_once w))) 1.
Proof.
  rewrite dispatched_once_eq. unfold advanced. simpl.
  rewrite Nat.add_1_r. auto.
Qed.

Lemma advanced_trans (w1 w2 w3 : World) (n m : nat) :
  advanced w1 w2 n -> advanced w2 w3 m -> advanced w1 w3 (n + m).
Proof.
  unfold advanced. intros (R1 & D1 & S1 & A1) (R2 & D2 & S2 & A2).
  rewrite R2, R1, D2, D1, S2, S1, A2, A1, Nat.add_assoc. auto.
Qed.

(** [j] attempts in a row, none of them the last, that all fail in a
    retryable way: the loop reaches the next index without returning. *)
Lemma attempts_skip (self : OpenAPICustomTransport.t) (j : nat) :
  forall (k : nat) (rest : list Z) (error_message : string) (w : World),
    (forall i, (i < j)%nat -> Z.of_nat (k + i) <> _api_retries self) ->
    (forall i, (i < j)%nat -> failure_message (remote w (dispatched w + i)) <> None) ->
    exists m w',
      attempts self (map Z.of_nat (seq k j) ++ rest)%list error_message w
      = attempts self rest m w'
      /\ advanced w w' j.
Proof.
  induction j as [|j IH]; intros k rest error_message w Hidx Hfail.
  - exists error_message, w. split; [reflexivity | apply advanced_refl].
  - destruct (failure_message (remote w (dispatched w))) as [m0|] eqn:E0.
    2:{ exfalso. apply (Hfail 0%nat); [lia|]. now rewrite Nat.add_0_r. }
    assert (Hk : Z.of_nat k <> _api_retries self).
    { specialize (Hidx 0%nat). rewrite Nat.add_0_r in Hidx. apply Hidx. lia. }
    pose (w1 := snd (emit (Sleep (backoff_timing self (Z.of_nat k)
                                     (status_of (remote w (dispatched w)))))
                       (dispatched_once w))).
    assert (A1 : advanced w w1 1) by apply advanced_step.
    destruct (IH (S k) rest m0 w1) as (m & w' & Heq & Hadv).
    + intros i Hi. replace (S k + i)%nat with (k + S i)%nat by lia. apply Hidx. lia.
    + intros i Hi. destruct A1 as (R1 & D1 & _). rewrite R1, D1.
      replace (dispatched w + 1 + i)%nat with (dispatched w + S i)%nat by lia.
      apply Hfail. lia.
    + exists m, w'. split.
      * simpl. unfold bind at 1.
        rewrite (iteration_goes_on self (Z.of_nat k) error_message m0 w Hk E0).
        simpl. exact Heq.
      * replace (S j) with (1 + j)%nat by lia. eapply advanced_trans; eassumption.
Qed.

Lemma range_split (n : Z) (k : nat) :
  0 <= n -> (k <= Z.to_nat n)%nat ->
  range (n + 1)
  = (map Z.of_nat (seq 0 k) ++ Z.of_nat k :: map Z.of_nat (seq (S k) (Z.to_nat n - k)))%list.
Proof.
  intros Hn Hk. unfold range.
  replace (Z.to_nat (n + 1)) with (k + S (Z.to_nat n - k))%nat by lia.
  rewrite seq_app, map_app. reflexivity.
Qed.

(** A response whose status is not in the list, on an attempt [k] before
    the last one and after [k] retryable failures: [handle_async_request]
    returns that response. *)
Lemma response_returned_before_last (self : OpenAPICustomTransport.t) (k : nat)
    (r : Response) (w : World) :
  0 <= _api_retries self ->
  Z.of_nat k < _api_retries self ->
  (forall i, (i < k)%nat -> failure_message (remote w (dispatched w + i)) <> None) ->
  remote w (dispatched w + k) = Responded r ->
  status_in_list (status_code r) = false ->
  exists w',
    handle_async_request self w = (Ok (Some r), w')
    /\ advanced w w' (S k).
Proof.
  intros Hn Hk Hfail Hr Hs.
  unfold handle_async_request.
  rewrite (range_split (_api_retries self) k) by lia.
  destruct (attempts_skip self k 0%nat
              (Z.of_nat k :: map Z.of_nat (seq (S k) (Z.to_nat (_api_retries self) - k)))
              "" w) as (m & w1 & Heq & Hadv).
  - intros i Hi. simpl. lia.
  - assumption.
  - rewrite Heq. destruct Hadv as (R1 & D1 & S1 & A1).
    exists (dispatched_once w1). split.
    + simpl. unfold bind at 1.
      rewrite (iteration_returns self (Z.of_nat k) m r w1); [reflexivity | lia | | assumption].
      now rewrite R1, D1.
    + rewrite dispatched_once_eq. unfold advanced. simpl.
      rewrite R1, D1, S1, A1. repeat split. lia.
Qed.

(** The last attempt, reached after retryable failures only: whatever it
    produces, the call raises, with the message stored in the class-level
    slot. *)
Lemma last_attempt_raises (self : OpenAPICustomTransport.t) (w : World) :
  _response_error_callback self = Plugin._notify_response_error ->
  0 <= _api_retries self ->
  (forall i, (i < Z.to_nat (_api_retries self))%nat ->
             failure_message (remote w (dispatched w + i)) <> None) ->
  exists m w1,
    advanced w w1 (Z.to_nat (_api_retries self))
    /\ handle_async_request self w
       = (Raise (Exn RuntimeError
                   (exceeded_message self (message_after m (remote w1 (dispatched w1))))),
          snd (Plugin._notify_response_error
                 (exceeded_message self (message_after m (remote w1 (dispatched w1))))
                 (dispatched_once w1))).
Proof.
  intros Hcb Hn Hfail.
  unfold handle_async_request.
  rewrite (range_split (_api_retries self) (Z.to_nat (_api_retries self))) by lia.
  rewrite Nat.sub_diag. simpl seq. simpl map.
  destruct (attempts_skip self (Z.to_nat (_api_retries self)) 0%nat
              [Z.of_nat (Z.to_nat (_api_retries self))] "" w) as (m & w1 & Heq & Hadv).
  - intros i Hi. simpl. lia.
  - assumption.
  - exists m, w1. split; [assumption|].
    rewrite Heq. simpl. unfold bind at 1.
    rewrite (iteration_last self _ m w1 Hcb) by lia.
    reflexivity.
Qed.

(** ** What the last attempt does with a good response *)

(** C2. The claim holds on every attempt before the last one
    ([response_returned_before_last]) and fails on the last one: when the
    attempts before it failed in a retryable way and the attempt with index
    [_api_retries] receives a response whose status is outside
    429, 500, 502, 503, 504, the finally clause still runs its
    [attempt == self._api_retries] branch, so the call stores
    "Maximum retries exceeded ..." in the class-level slot and raises
    RuntimeError in place of returning the response. *)
Theorem response_on_last_attempt_is_discarded
    (self : OpenAPICustomTransport.t) (r : Response) (w : World) :
  _response_error_callback self = Plugin._notify_response_error ->
  0 <= _api_retries self ->
  (forall i, (i < Z.to_nat (_api_retries self))%nat ->
             failure_message (remote w (dispatched w + i)) <> None) ->
  remote w (dispatched w + Z.to_nat (_api_retries self)) = Responded r ->
  status_in_list (status_code r) = false ->
  exists m w',
    handle_async_request self w = (Raise (Exn RuntimeError (exceeded_message self m)), w')
    /\ fst (handle_async_request self w) <> Ok (Some r)
    /\ Plugin_response_error_message w' = exceeded_message self m.
Proof.
  intros Hcb Hn Hfail Hr Hs.
  destruct (last_attempt_raises self w Hcb Hn Hfail) as (m & w1 & Hadv & Heq).
  destruct Hadv as (R1 & D1 & _).
  rewrite R1, D1, Hr in Heq.
  assert (Hm : message_after m (Responded r) = m).
  { unfold message_after. simpl. now rewrite Hs. }
  rewrite Hm in Heq.
  exists m. eexists. split; [exact Heq|]. split.
  - rewrite Heq. simpl. discriminate.
  - rewrite dispatched_once_eq. reflexivity.
Qed.

Lemma response_on_last_attempt_is_discarded_witness :
  exists m w',
    handle_async_request
      (Plugin.custom_session_factory (initial_world three_failures_then_ok))
      (initial_world three_failures_then_ok)
    = (Raise (Exn RuntimeError
                (exceeded_message
                   (Plugin.custom_session_factory (initial_world three_failures_then_ok)) m)),
       w')
    /\ fst (handle_async_request
              (Plugin.custom_session_factory (initial_world three_failures_then_ok))
              (initial_world three_failures_then_ok))
       <> Ok (Some (mkResponse 200 "prediction"))
    /\ Plugin_response_error_message w'
       = exceeded_message
           (Plugin.custom_session_factory (initial_world three_failures_then_ok)) m.
Proof.
  apply (response_on_last_attempt_is_discarded
           (Plugin.custom_session_factory (initial_world three_failures_then_ok))
           (mkResponse 200 "prediction") (initial_world three_failures_then_ok)).
  - reflexivity.
  - vm_compute. discriminate.
  - intros i Hi. change (Z.to_nat _) with 3%nat in Hi.
    destruct i as [|[|[|i]]]; [vm_compute; discriminate .. | lia].
  - reflexivity.
  - reflexivity.
Defined.

(** The same at the input itself: three answers 503 and then 200 with the
    default three retries, and a single answer 200 when the class attribute
    [_api_retries] is 0. *)
Lemma response_on_last_attempt_examples :
  fst (handle_async_request
         (Plugin.custom_session_factory (initial_world three_failures_then_ok))
         (initial_world three_failures_then_ok))
  = Raise (Exn RuntimeError
             "Maximum retries exceeded (3) Response status code: 503 (SERVICE_UNAVAILABLE)")
  /\ fst (handle_async_request
            (OpenAPICustomTransport.__init__ false None 0 5 Plugin._notify_response_error)
            (mkWorld "" false 5 None 0 (fun _ => Responded (mkResponse 200 "prediction")) 0 []))
     = Raise (Exn RuntimeError "Maximum retries exceeded (0) ").
Proof.
  split; vm_compute; reflexivity.
Qed.

(** ** Exhausted retries *)

Section RequestPath.

Variable lib : Collaborators.

Import OpenAPI.

Lemma make_requests_build (self : Plugin.t) (w : World) :
  Plugin.make_requests lib self w
  = match build lib self with
    | (self', Raise e) => (Raise e, self', w)
    | (self', Ok (op, params, data)) =>
        (fst (Plugin.request lib op params data w), self',
         snd (Plugin.request lib op params data w))
    end.
Proof.
  unfold Plugin.make_requests, build.
  destruct (Plugin.the_predict_api self) as [op|e]; [|reflexivity].
  destruct (lower (method op) =? "post")%string.
  - destruct (Plugin.get_schema_content self) as [schema|e]; [|reflexivity].
    destruct (Plugin.populate_headers (parameters op) []) as [headers|e]; [|reflexivity].
    destruct (Plugin.construct_body lib schema) as [body|e]; [|reflexivity].
    destruct (Plugin.request lib op headers (Some body) w); reflexivity.
  - destruct (lower (method op) =? "get")%string; [|reflexivity].
    destruct (Plugin.request lib op Plugin.payload None w); reflexivity.
Qed.

Lemma custom_session_factory_retries (w : World) :
  _api_retries (Plugin.custom_session_factory w) = Plugin_api_retries w.
Proof. reflexivity. Qed.

Lemma send_error_exceeded (m : string) :
  Plugin.send_error lib (Exn RuntimeError m) = Exn RuntimeError m
  \/ is_RequestError (Plugin.send_error lib (Exn RuntimeError m)) = true.
Proof.
  unfold Plugin.send_error. destruct (wraps_send_errors lib); [right | left]; reflexivity.
Qed.

Lemma exceeded_prefix (self : OpenAPICustomTransport.t) (m : string) :
  String.prefix "Maximum retries exceeded" (exceeded_message self m) = true.
Proof. reflexivity. Qed.

(** C3 (amended). When all [_api_retries + 1] attempts of a request fail in
    a retryable way, [handle_async_request] raises RuntimeError with the
    message "Maximum retries exceeded (<_api_retries>) <last>", where
    <last> is the text of the last attempt: the text of the network
    exception, or "Response status code: <code> (<NAME>)" with <NAME> the
    name of the [http.HTTPStatus] member (INTERNAL_SERVER_ERROR for 500,
    not the reason phrase). The class-level slot then holds that same
    message, stored between acquiring and releasing the lock as the last
    effects before the exception; and [predict], for a request that was
    built and handed to the session, raises RuntimeError with a message
    that starts with "Maximum retries exceeded". *)
Theorem retries_exhausted (w : World) :
  0 <= Plugin_api_retries w ->
  (forall i, (i <= Z.to_nat (Plugin_api_retries w))%nat ->
             failure_message (remote w (dispatched w + i)) <> None) ->
  exists last w',
    match remote w (dispatched w + Z.to_nat (Plugin_api_retries w)) with
    | Responded r =>
        exists name,
          HTTPStatus_name (status_code r) = Some name
          /\ last = "Response status code: " ++ str_int (status_code r) ++ " (" ++ name ++ ")"
    | Failed e => last = str_exn e
    end
    /\ handle_async_request (Plugin.custom_session_factory w) w
       = (Raise (Exn RuntimeError
                   ("Maximum retries exceeded (" ++ str_int (Plugin_api_retries w) ++ ") " ++ last)),
          w')
    /\ Plugin_response_error_message w'
       = "Maximum retries exceeded (" ++ str_int (Plugin_api_retries w) ++ ") " ++ last
    /\ (exists before,
          trace w'
          = (before
             ++ [LockAcquire;
                 ErrorWrite
                   ("Maximum retries exceeded (" ++ str_int (Plugin_api_retries w) ++ ") " ++ last);
                 LockRelease])%list)
    /\ (forall self data self' op params body,
          build lib self = (self', Ok (op, params, body)) ->
          prepare lib op params body = Ok tt ->
          exists message,
            fst (fst (Plugin.predict lib self data w)) = Raise (Exn RuntimeError message)
            /\ String.prefix "Maximum retries exceeded" message = true).
Proof.
  intros Hn Hfail.
  destruct (last_attempt_raises (Plugin.custom_session_factory w) w) as (m & w1 & Hadv & Heq).
  - reflexivity.
  - assumption.
  - intros i Hi. apply Hfail. rewrite custom_session_factory_retries in Hi. lia.
  - rewrite custom_session_factory_retries in *.
    destruct Hadv as (R1 & D1 & S1 & A1).
    rewrite R1, D1 in Heq.
    destruct (failure_message (remote w (dispatched w + Z.to_nat (Plugin_api_retries w))))
      as [last|] eqn:El.
    2:{ exfalso. apply (Hfail (Z.to_nat (Plugin_api_retries w))); [lia | assumption]. }
    unfold message_after in Heq. rewrite El in Heq.
    set (msg := "Maximum retries exceeded (" ++ str_int (Plugin_api_retries w) ++ ") " ++ last) in *.
    change (exceeded_message (Plugin.custom_session_factory w) last) with msg in Heq.
    exists last. eexists. split; [|split; [exact Heq | split; [|split]]].
    + destruct (remote w (dispatched w + Z.to_nat (Plugin_api_retries w))) as [r|[cls text0]].
      * simpl in El. destruct (status_in_list (status_code r)); [|discriminate].
        destruct (HTTPStatus_name (status_code r)) as [name|]; [|discriminate].
        exists name. split; [reflexivity | now inversion El].
      * simpl in El. destruct cls; try discriminate.
        destruct (caught c); [|discriminate]. now inversion El.
    + rewrite dispatched_once_eq. reflexivity.
    + rewrite dispatched_once_eq. simpl.
      exists (trace w1 ++ [NetworkIO (dispatched w1)])%list.
      rewrite <- !app_assoc. reflexivity.
    + intros self data self' op params body Hb Hp.
      unfold Plugin.predict. rewrite make_requests_build, Hb.
      unfold Plugin.request. rewrite Hp, Heq. simpl.
      destruct (send_error_exceeded msg) as [Hs | Hs].
      * rewrite Hs. simpl. exists msg. split; reflexivity.
      * rewrite Hs. simpl. exists msg. split; reflexivity.
Qed.

End RequestPath.

Lemma retries_exhausted_witness :
  exists last w',
    handle_async_request (Plugin.custom_session_factory (initial_world (always 500 "")))
      (initial_world (always 500 ""))
    = (Raise (Exn RuntimeError ("Maximum retries exceeded (" ++ str_int 3 ++ ") " ++ last)), w')
    /\ Plugin_response_error_message w'
       = "Maximum retries exceeded (" ++ str_int 3 ++ ") " ++ last.
Proof.
  destruct (retries_exhausted (accepting json_post_api) (initial_world (always 500 "")))
    as (last & w' & _ & Heq & Hslot & _).
  - vm_compute. discriminate.
  - intros i _. vm_compute. discriminate.
  - exists last, w'. split; assumption.
Defined.

(** C3, as stated, fails: four answers 500 with the default three retries
    raise a message that names the status INTERNAL_SERVER_ERROR, which is
    not the message built with the reason phrase; the slot holds the
    former. *)
Lemma exhausted_message_is_not_the_reason_phrase :
  fst (handle_async_request (Plugin.custom_session_factory (initial_world (always 500 "")))
         (initial_world (always 500 "")))
  = Raise (Exn RuntimeError
             "Maximum retries exceeded (3) Response status code: 500 (INTERNAL_SERVER_ERROR)")
  /\ fst (handle_async_request (Plugin.custom_session_factory (initial_world (always 500 "")))
            (initial_world (always 500 "")))
     <> Raise (Exn RuntimeError (spec_exhausted_message 3 500))
  /\ Plugin_response_error_message
       (snd (handle_async_request (Plugin.custom_session_factory (initial_world (always 500 "")))
               (initial_world (always 500 ""))))
     <> spec_exhausted_message 3 500.
Proof.
  split; [vm_compute; reflexivity|]. split; vm_compute; discriminate.
Qed.

(** ** The value predict returns *)

Lemma ready_is_set_up :
  snd (Plugin.setup (accepting json_post_api)
         (Plugin.__init__ (Some one_post_schema) (Some token_config)))
  = (true, "")
  /\ Plugin._is_setup_completed ready = true.
Proof. split; reflexivity. Qed.

(** C1. [predict] does not hand the response to its caller: whenever it
    returns, it returns None, for every instance, input and world; the body
    of the response is only printed. At a set-up connector whose server
    answers 200 with the body "0.87", [predict] returns None and the trace
    ends with the print of "0.87". *)
Theorem predict_returns_none (lib : Collaborators) (self : Plugin.t) (data : value) (w : World) :
  match fst (fst (Plugin.predict lib self data w)) with
  | Ok v => v = VNone
  | Raise _ => True
  end
  /\ fst (fst (Plugin.predict (accepting json_post_api) ready data
                 (initial_world (always 200 "0.87"))))
     = Ok VNone
  /\ fst (fst (Plugin.predict (accepting json_post_api) ready data
                 (initial_world (always 200 "0.87"))))
     <> Ok (VStr "0.87")
  /\ trace (snd (Plugin.predict (accepting json_post_api) ready data
                   (initial_world (always 200 "0.87"))))
     = [NetworkIO 0; Print "0.87"].
Proof.
  split; [|split; [reflexivity | split; [discriminate | reflexivity]]].
  unfold Plugin.predict.
  destruct (Plugin.make_requests lib self w) as [[[responses|e] self'] w1]; simpl.
  - reflexivity.
  - destruct (is_RequestError e); simpl; exact I.
Qed.

(** ** The lock around the error slot *)

Lemma discipline_app (tr more : list event) :
  discipline (tr ++ more) = fold_left lock_step more (discipline tr).
Proof. unfold discipline. apply fold_left_app. Qed.

Lemma get_response_error_keeps_discipline (w : World) :
  discipline (trace w) = Some false ->
  discipline (trace (snd (Plugin._get_response_error w))) = Some false
  /\ fst (Plugin._get_response_error w) = Ok (Plugin_response_error_message w).
Proof.
  intros H. unfold Plugin._get_response_error, bind, emit, load_error, ret. simpl.
  rewrite <- !app_assoc, discipline_app, H. split; reflexivity.
Qed.

Lemma notify_response_error_keeps_discipline (m : string) (w : World) :
  discipline (trace w) = Some false ->
  discipline (trace (snd (Plugin._notify_response_error m w))) = Some false.
Proof.
  intros H. unfold Plugin._notify_response_error, bind, emit, store_error. simpl.
  rewrite <- !app_assoc, discipline_app, H. reflexivity.
Qed.

Lemma iteration_keeps_discipline (self : OpenAPICustomTransport.t) (attempt : Z)
    (error_message : string) (w : World) :
  _response_error_callback self = Plugin._notify_response_error ->
  discipline (trace w) = Some false ->
  discipline (trace (snd (iteration self attempt error_message w))) = Some false.
Proof.
  intros Hcb H.
  destruct (Z.eq_dec attempt (_api_retries self)) as [Heq | Hne].
  - rewrite (iteration_last self attempt error_message w Hcb Heq). simpl.
    apply notify_response_error_keeps_discipline.
    rewrite dispatched_once_eq. simpl. rewrite discipline_app, H. reflexivity.
  - destruct (failure_message (remote w (dispatched w))) as [m|] eqn:E.
    + rewrite (iteration_goes_on self attempt error_message m w Hne E).
      rewrite dispatched_once_eq. simpl.
      rewrite <- app_assoc, discipline_app, H. reflexivity.
    + apply Z.eqb_neq in Hne.
      unfold iteration, bind, try_clauses, super_handle_async_request.
      world_cases w.
      assert (Hd : discipline (tr ++ [NetworkIO sent]) = Some false)
        by (rewrite discipline_app, H; reflexivity).
      destruct (server sent) as [r | [cls msg]]; simpl in *.
      * destruct (status_in_list (status_code r)); simpl.
        -- destruct (HTTPStatus_name (status_code r)); [discriminate|].
           simpl. unfold finally_clause. rewrite Hne. simpl. exact Hd.
        -- unfold finally_clause. rewrite Hne. simpl. exact Hd.
      * destruct cls; simpl;
          try (unfold finally_clause; rewrite Hne; simpl; exact Hd).
        destruct (caught c); [discriminate|].
        simpl. unfold finally_clause. rewrite Hne. simpl. exact Hd.
Qed.

(** The transport keeps the discipline, whatever the server does. *)
Lemma handle_async_request_keeps_discipline (self : OpenAPICustomTransport.t) (w : World) :
  _response_error_callback self = Plugin._notify_response_error ->
  discipline (trace w) = Some false ->
  discipline (trace (snd (handle_async_request self w))) = Some false.
Proof.
  intros Hcb. unfold handle_async_request.
  generalize (range (_api_retries self + 1)) as indices.
  generalize "" as error_message. intros error_message indices. revert error_message w.
  induction indices as [|attempt rest IH]; intros error_message w H.
  - exact H.
  - simpl. unfold bind at 1.
    pose proof (iteration_keeps_discipline self attempt error_message w Hcb H) as Hi.
    destruct (iteration self attempt error_message w) as [[[m p]|e] w1]; simpl in *.
    + destruct p; [apply IH; exact Hi | exact Hi | apply IH; exact Hi].
    + exact Hi.
Qed.

(** C6. The transport keeps the lock discipline
    ([handle_async_request_keeps_discipline]), and so does the getter
    [_get_response_error]; [predict] does not: when [make_requests] raises
    aiopenapi3.RequestError, [predict] loads [Plugin._response_error_message]
    directly, with the lock free, and the discipline kept until then is
    broken by that read. *)
Theorem predict_reads_the_slot_without_the_lock
    (lib : Collaborators) (self self' : Plugin.t) (data : value) (w w1 : World) (e : exn) :
  Plugin.make_requests lib self w = (Raise e, self', w1) ->
  is_RequestError e = true ->
  discipline (trace w1) = Some false ->
  trace (snd (Plugin.predict lib self data w))
  = (trace w1 ++ [ErrorRead (Plugin_response_error_message w1)])%list
  /\ discipline (trace (snd (Plugin.predict lib self data w))) = None.
Proof.
  intros Hm He Hd. unfold Plugin.predict. rewrite Hm, He. simpl.
  split; [reflexivity|]. rewrite discipline_app, Hd. reflexivity.
Qed.

Lemma predict_reads_the_slot_without_the_lock_witness :
  trace (snd (Plugin.predict (accepting json_post_api) ready VNone (initial_world (always 503 ""))))
  = (trace (snd (Plugin.make_requests (accepting json_post_api) ready
                   (initial_world (always 503 ""))))
     ++ [ErrorRead
           (Plugin_response_error_message
              (snd (Plugin.make_requests (accepting json_post_api) ready
                      (initial_world (always 503 "")))))])%list
  /\ discipline
       (trace (snd (Plugin.predict (accepting json_post_api) ready VNone
                      (initial_world (always 503 "")))))
     = None.
Proof.
  apply (predict_reads_the_slot_without_the_lock
           (accepting json_post_api) ready
           (snd (fst (Plugin.make_requests (accepting json_post_api) ready
                        (initial_world (always 503 "")))))
           VNone (initial_world (always 503 ""))
           (snd (Plugin.make_requests (accepting json_post_api) ready
                   (initial_world (always 503 ""))))
           (Exn RequestError "RequestError")).
  - vm_compute. reflexivity.
  - reflexivity.
  - vm_compute. reflexivity.
Defined.

(** The trace of that call: four dispatches with the sleeps between them,
    the locked write of the transport, then the read of [predict]. *)
Lemma predict_failure_trace :
  trace (snd (Plugin.predict (accepting json_post_api) ready VNone (initial_world (always 503 ""))))
  = [NetworkIO 0; Sleep 1; NetworkIO 1; Sleep 2; NetworkIO 2; Sleep 4; NetworkIO 3;
     LockAcquire;
     ErrorWrite "Maximum retries exceeded (3) Response status code: 503 (SERVICE_UNAVAILABLE)";
     LockRelease;
     ErrorRead "Maximum retries exceeded (3) Response status code: 503 (SERVICE_UNAVAILABLE)"].
Proof. vm_compute. reflexivity. Qed.

(** ** One slot for every instance *)

(** [predict] after the transport has raised the exhaustion error: the
    caller gets RuntimeError with that message, and the slot keeps it. *)
Lemma predict_after_exhaustion (lib : Collaborators) (self self' : Plugin.t) (data : value)
    (w w' : World) (op : OpenAPI.OperationRequest) (params : dict value)
    (body : option OpenAPI.Body) (msg : string) :
  build lib self = (self', Ok (op, params, body)) ->
  prepare lib op params body = Ok tt ->
  handle_async_request (Plugin.custom_session_factory w) w = (Raise (Exn RuntimeError msg), w') ->
  Plugin_response_error_message w' = msg ->
  fst (fst (Plugin.predict lib self data w)) = Raise (Exn RuntimeError msg)
  /\ Plugin_response_error_message (snd (Plugin.predict lib self data w)) = msg.
Proof.
  intros Hb Hp Hh Hs.
  unfold Plugin.predict. rewrite make_requests_build, Hb.
  unfold Plugin.request. rewrite Hp, Hh. simpl.
  destruct (send_error_exceeded lib msg) as [He | He]; rewrite He; simpl.
  - split; [reflexivity | assumption].
  - rewrite Hs. split; reflexivity.
Qed.

(** C7. The slot is an attribute of the class, not of an instance (it is a
    field of [World], and [Plugin.t] has none): when a request issued
    through an instance [a] exhausts its retries, the message it stores is
    what [_get_response_error] returns afterwards, and it is the message of
    the RuntimeError that [predict] raises through any other instance [b]
    whose request fails with RequestError without a store of its own; a
    later store, from whatever request, replaces it (the last writer
    wins). *)
Theorem error_slot_is_shared_by_all_instances
    (lib : Collaborators) (a a' b : Plugin.t) (data : value) (w : World)
    (op : OpenAPI.OperationRequest) (params : dict value) (body : option OpenAPI.Body) :
  0 <= Plugin_api_retries w ->
  (forall i, (i <= Z.to_nat (Plugin_api_retries w))%nat ->
             failure_message (remote w (dispatched w + i)) <> None) ->
  build lib a = (a', Ok (op, params, body)) ->
  prepare lib op params body = Ok tt ->
  exists msg,
    fst (fst (Plugin.predict lib a data w)) = Raise (Exn RuntimeError msg)
    /\ Plugin_response_error_message (snd (Plugin.predict lib a data w)) = msg
    /\ fst (Plugin._get_response_error (snd (Plugin.predict lib a data w))) = Ok msg
    /\ (forall e b' w2,
          Plugin.make_requests lib b (snd (Plugin.predict lib a data w)) = (Raise e, b', w2) ->
          is_RequestError e = true ->
          Plugin_response_error_message w2 = msg ->
          fst (fst (Plugin.predict lib b data (snd (Plugin.predict lib a data w))))
          = Raise (Exn RuntimeError msg))
    /\ (forall later,
          Plugin_response_error_message
            (snd (Plugin._notify_response_error later (snd (Plugin.predict lib a data w))))
          = later
          /\ fst (Plugin._get_response_error
                    (snd (Plugin._notify_response_error later
                            (snd (Plugin.predict lib a data w)))))
             = Ok later).
Proof.
  intros Hn Hfail Hb Hp.
  destruct (last_attempt_raises (Plugin.custom_session_factory w) w) as (m & w1 & Hadv & Heq).
  - reflexivity.
  - assumption.
  - intros i Hi. apply Hfail. rewrite custom_session_factory_retries in Hi. lia.
  - match type of Heq with _ = (Raise (Exn RuntimeError ?s), ?w') =>
      set (msg := s) in *; set (wend := w') in * end.
    assert (Hslot : Plugin_response_error_message wend = msg).
    { unfold wend. rewrite dispatched_once_eq. reflexivity. }
    destruct (predict_after_exhaustion lib a a' data w wend op params body msg Hb Hp Heq Hslot)
      as [Hr Hs].
    exists msg. split; [exact Hr|]. split; [exact Hs|]. split; [|split].
    + unfold Plugin._get_response_error, bind, emit, load_error, ret. simpl.
      now rewrite Hs.
    + intros e b' w2 Hmk He Hw2.
      unfold Plugin.predict at 1. rewrite Hmk, He. simpl. now rewrite Hw2.
    + intros later. split; reflexivity.
Qed.

Lemma error_slot_is_shared_by_all_instances_witness :
  fst (fst (Plugin.predict (accepting json_post_api) second_instance VNone
              (snd (Plugin.predict (accepting json_post_api) ready VNone
                      (initial_world four_failures_then_write_timeout)))))
  = Raise (Exn RuntimeError
             "Maximum retries exceeded (3) Response status code: 500 (INTERNAL_SERVER_ERROR)").
Proof.
  destruct (error_slot_is_shared_by_all_instances
              (accepting json_post_api) ready
              (fst (build (accepting json_post_api) ready)) second_instance VNone
              (initial_world four_failures_then_write_timeout)
              (OpenAPI.mkOperationRequest "post"
                 (OpenAPI.mkOperation
                    (Some (OpenAPI.mkRequestBody
                             [("application/json",
                               OpenAPI.MediaType.mk (Some (OpenAPI.mkSchema "Features" None)))]
                             "{'application/json': MediaType}")))
                 [])
              []
              (Some (OpenAPI.mkBody (OpenAPI.mkSchema "Features" None) Plugin.payload)))
    as (msg & Hr & _ & _ & Hb & _).
  - vm_compute. discriminate.
  - intros i Hi. change (Z.to_nat _) with 3%nat in Hi.
    destruct i as [|[|[|[|i]]]]; [vm_compute; discriminate .. | lia].
  - reflexivity.
  - reflexivity.
  - assert (Hmsg : msg = "Maximum retries exceeded (3) Response status code: 500 (INTERNAL_SERVER_ERROR)").
    { vm_compute in Hr. now inversion Hr. }
    rewrite <- Hmsg.
    eapply Hb.
    + vm_compute. reflexivity.
    + reflexivity.
    + rewrite Hmsg. vm_compute. reflexivity.
Defined.

(** ** The content type of a POST body *)

Section ContentType.

Import OpenAPI.

Lemma contains_get {V : Type} (k : string) (d : dict V) :
  contains k d = true -> exists v, get k d = Some v.
Proof.
  unfold contains. destruct (get k d) as [v|]; [eauto | discriminate].
Qed.

Lemma spec_content_type_none (c : dict MediaType.t) :
  spec_content_type c = None <-> forall ct, In ct spec_priority -> contains ct c = false.
Proof.
  unfold spec_content_type. split.
  - intros H ct Hin. apply (find_none _ _ H ct Hin).
  - intros H. simpl.
    rewrite (H "application/json"), (H "multipart/form-data"),
      (H "application/x-www-form-urlencoded"); simpl; auto.
Qed.

(** C8 (amended). For a POST operation that declares a request body,
    [get_schema_content] returns the schema of the first of
    "application/json", "multipart/form-data",
    "application/x-www-form-urlencoded" (in this order) that the content
    map declares, and raises NotImplementedError exactly when the map
    declares none of the three (it raises nothing else);
    [make_requests] stores that schema in [_api_instance_schema], or
    fails with that error before anything is sent. For an operation that
    declares no request body there is no content map to scan:
    [get_schema_content] raises AttributeError, and so does
    [make_requests] on a POST operation. The instance is given by its
    fields, whatever the flag, the parameters, the security schemes and
    the stored schemas are. *)
Theorem content_type_is_resolved_by_priority
    (lib : Collaborators) (flag : bool) (stored : option Schema)
    (schema config : dict value) (verb : string) (params : list Param.t)
    (schemes : dict SecurityScheme) (registry : dict credential) :
  (forall body : RequestBody,
     let self :=
       Plugin.mk flag
         (Some (OpenAPI.mk
                  (Ok (mkOperationRequest verb (mkOperation (Some body)) params))
                  schemes registry))
         stored schema config in
     match spec_content_type (content body) with
     | Some ct =>
         exists media,
           get ct (content body) = Some media
           /\ Plugin.get_schema_content self = Ok (MediaType.schema_ media)
     | None =>
         Plugin.get_schema_content self = Raise (Exn NotImplementedError (content_repr body))
     end
     /\ ((exists e, Plugin.get_schema_content self = Raise e)
         <-> (forall ct, In ct spec_priority -> contains ct (content body) = false))
     /\ (forall e, Plugin.get_schema_content self = Raise e ->
                   e = Exn NotImplementedError (content_repr body))
     /\ (forall w,
           lower verb = "post" ->
           match Plugin.get_schema_content self with
           | Ok found =>
               Plugin._api_instance_schema (snd (fst (Plugin.make_requests lib self w))) = found
           | Raise e => Plugin.make_requests lib self w = (Raise e, self, w)
           end))
  /\ (let self :=
        Plugin.mk flag
          (Some (OpenAPI.mk (Ok (mkOperationRequest verb (mkOperation None) params))
                   schemes registry))
          stored schema config in
      Plugin.get_schema_content self
      = Raise (Exn AttributeError "'NoneType' object has no attribute 'content'")
      /\ (forall w,
            lower verb = "post" ->
            Plugin.make_requests lib self w
            = (Raise (Exn AttributeError "'NoneType' object has no attribute 'content'"),
               self, w))).
Proof.
  split.
  - intros body self.
    assert (Hmain :
      match spec_content_type (content body) with
      | Some ct =>
          exists media,
            get ct (content body) = Some media
            /\ Plugin.get_schema_content self = Ok (MediaType.schema_ media)
      | None =>
          Plugin.get_schema_content self = Raise (Exn NotImplementedError (content_repr body))
      end).
    { unfold Plugin.get_schema_content, spec_content_type, Plugin.content_schema. simpl.
      destruct (contains "application/json" (content body)) eqn:E1.
      - destruct (contains_get _ _ E1) as [media Hm]. exists media. now rewrite Hm.
      - destruct (contains "multipart/form-data" (content body)) eqn:E2.
        + destruct (contains_get _ _ E2) as [media Hm]. exists media. now rewrite Hm.
        + destruct (contains "application/x-www-form-urlencoded" (content body)) eqn:E3.
          * destruct (contains_get _ _ E3) as [media Hm]. exists media. now rewrite Hm.
          * reflexivity. }
    split; [exact Hmain|]. split; [|split].
    + rewrite <- spec_content_type_none.
      destruct (spec_content_type (content body)) as [ct|].
      * destruct Hmain as (media & _ & Hg). rewrite Hg. split.
        -- intros [e He]. discriminate.
        -- discriminate.
      * rewrite Hmain. split; eauto.
    + intros e He.
      destruct (spec_content_type (content body)) as [ct|].
      * destruct Hmain as (media & _ & Hg). rewrite Hg in He. discriminate.
      * rewrite Hmain in He. now inversion He.
    + intros w Hpost. unfold Plugin.make_requests, Plugin.the_predict_api. simpl.
      rewrite Hpost. simpl.
      destruct (Plugin.get_schema_content self) as [found|e]; [|reflexivity].
      destruct (Plugin.populate_headers params []) as [headers|e]; [|reflexivity].
      destruct (Plugin.construct_body lib found) as [b|e]; [|reflexivity].
      destruct (Plugin.request lib _ headers (Some b) w). reflexivity.
  - intros self. split; [reflexivity|].
    intros w Hpost. unfold Plugin.make_requests, Plugin.the_predict_api. simpl.
    rewrite Hpost. reflexivity.
Qed.

End ContentType.

Lemma content_type_is_resolved_by_priority_witness :
  Plugin.get_schema_content (Plugin.mk true (Some text_plain_api) None [] [])
  = Raise (Exn NotImplementedError "{'text/plain': MediaType}").
Proof.
  exact (proj1 (proj1 (content_type_is_resolved_by_priority
                         (accepting text_plain_api) true None [] [] "POST" [] [] [])
                  (OpenAPI.mkRequestBody
                     [("text/plain", OpenAPI.MediaType.mk (Some (OpenAPI.mkSchema "Text" None)))]
                     "{'text/plain': MediaType}"))).
Defined.

(** C8, as stated, fails. A POST operation may declare no request body;
    then none of the three media types is present, and yet the request
    builder does not fail with NotImplementedError (the unsupported
    content type error): [get_schema_content] and [predict] raise
    AttributeError, because the code reads [requestBody.content] of
    None. *)
Lemma post_without_request_body_raises_attribute_error :
  Plugin.get_schema_content (Plugin.mk true (Some (method_api "post")) None [] [])
  = Raise (Exn AttributeError "'NoneType' object has no attribute 'content'")
  /\ (forall text,
        Plugin.get_schema_content (Plugin.mk true (Some (method_api "post")) None [] [])
        <> Raise (Exn NotImplementedError text))
  /\ Plugin.predict (accepting (method_api "post"))
       (Plugin.mk true (Some (method_api "post")) None [] []) VNone
       (initial_world (always 200 ""))
     = (Raise (Exn AttributeError "'NoneType' object has no attribute 'content'"),
        Plugin.mk true (Some (method_api "post")) None [] [],
        initial_world (always 200 "")).
Proof.
  split; [reflexivity|]. split; [|reflexivity].
  intros text H. discriminate H.
Qed.

(** A content map that declares all three types in another order: the
    JSON schema is taken, not the first declared. *)
Lemma content_type_priority_example :
  Plugin.get_schema_content
    (Plugin.mk true
       (Some (OpenAPI.mk
                (Ok (OpenAPI.mkOperationRequest "post"
                       (OpenAPI.mkOperation
                          (Some (OpenAPI.mkRequestBody
                                   [("application/x-www-form-urlencoded",
                                     OpenAPI.MediaType.mk (Some (OpenAPI.mkSchema "Form" None)));
                                    ("multipart/form-data",
                                     OpenAPI.MediaType.mk (Some (OpenAPI.mkSchema "Parts" None)));
                                    ("application/json",
                                     OpenAPI.MediaType.mk (Some (OpenAPI.mkSchema "Json" None)))]
                                   "content")))
                       []))
                [] []))
       None [] [])
  = Ok (Some (OpenAPI.mkSchema "Json" None)).
Proof. reflexivity. Qed.

(** ** Required header parameters *)

(** C9. For a required header parameter the loop of [make_requests] looks
    at [len(parameter.schema_.enum)]: a non-empty enumeration sets the
    header to its first entry, an empty list leaves the header unset, and a
    schema without the [enum] attribute (None) makes [len] raise TypeError,
    so that [make_requests] fails before the request is sent; parameters
    that are not required headers are skipped. At a set-up connector whose
    only parameter is the required header X-Api-Version with a schema that
    declares no enumeration, [predict] raises that TypeError and nothing is
    dispatched. *)
Theorem required_header_without_enum_raises
    (lib : Collaborators) (name ref : string) (first : value) (others : list value)
    (rest : list OpenAPI.Param.t) (headers : dict value) (data : value) (w : World) :
  Plugin.populate_headers
    (OpenAPI.Param.mk name OpenAPI.header true
       (Some (OpenAPI.mkSchema ref (Some (first :: others)))) :: rest) headers
  = Plugin.populate_headers rest (update name first headers)
  /\ Plugin.populate_headers
       (OpenAPI.Param.mk name OpenAPI.header true (Some (OpenAPI.mkSchema ref (Some []))) :: rest)
       headers
     = Plugin.populate_headers rest headers
  /\ Plugin.populate_headers
       (OpenAPI.Param.mk name OpenAPI.header true (Some (OpenAPI.mkSchema ref None)) :: rest)
       headers
     = Raise (Exn TypeError "object of type 'NoneType' has no len()")
  /\ Plugin.predict lib
       (Plugin.mk true (Some (header_api (OpenAPI.mkSchema ref None))) None [] []) data w
     = (Raise (Exn TypeError "object of type 'NoneType' has no len()"),
        Plugin.mk true (Some (header_api (OpenAPI.mkSchema ref None)))
          (Some (OpenAPI.mkSchema "Features" None)) [] [],
        w).
Proof.
  repeat split.
Qed.

(** With an enumeration the same connector sends the header set to the
    first entry. *)
Lemma required_header_with_enum_example :
  fst (build (accepting json_post_api)
         (Plugin.mk true
            (Some (header_api (OpenAPI.mkSchema "version" (Some [VStr "v1"; VStr "v2"]))))
            None [] []))
  = Plugin.mk true
      (Some (header_api (OpenAPI.mkSchema "version" (Some [VStr "v1"; VStr "v2"]))))
      (Some (OpenAPI.mkSchema "Features" None)) [] []
  /\ snd (build (accepting json_post_api)
            (Plugin.mk true
               (Some (header_api (OpenAPI.mkSchema "version" (Some [VStr "v1"; VStr "v2"]))))
               None [] []))
     = Ok (OpenAPI.mkOperationRequest "post"
             (OpenAPI.mkOperation
                (Some (OpenAPI.mkRequestBody
                         [("application/json",
                           OpenAPI.MediaType.mk (Some (OpenAPI.mkSchema "Features" None)))]
                         "{'application/json': MediaType}")))
             [OpenAPI.Param.mk "X-Api-Version" OpenAPI.header true
                (Some (OpenAPI.mkSchema "version" (Some [VStr "v1"; VStr "v2"])))],
           [("X-Api-Version", VStr "v1")],
           Some (OpenAPI.mkBody (OpenAPI.mkSchema "Features" None) Plugin.payload)).
Proof. split; reflexivity. Qed.

(** ** A failed setup *)

Section Setup.

Variable lib : Collaborators.

(** C5 (amended). When [setup] returns False, the setup-completed flag,
    the configuration and [_api_instance_schema] are what they were before
    the call; when the failure comes from the validation, or from the
    search for the first operation, the whole instance is unchanged, the
    stored schema and the API instance slot included. A later failure is
    not rolled back: the stored schema is the one tagged with the
    operation identifier, the instance slot is untouched when the loader
    raised, and holds the client (with the credentials registered so far)
    when the authentication step raised. *)
Theorem failed_setup_keeps_the_flag (self self' : Plugin.t) (message : string) :
  Plugin.setup lib self = (self', (false, message)) ->
  Plugin._is_setup_completed self' = Plugin._is_setup_completed self
  /\ Plugin._api_config self' = Plugin._api_config self
  /\ Plugin._api_instance_schema self' = Plugin._api_instance_schema self
  /\ (fst (Plugin._perform_validation lib self) = false -> self' = self)
  /\ (forall e, Plugin.tag_first_operation (Plugin._api_schema self) = Raise e -> self' = self)
  /\ (forall schema,
        fst (Plugin._perform_validation lib self) = true ->
        Plugin.tag_first_operation (Plugin._api_schema self) = Ok schema ->
        Plugin._api_schema self' = schema
        /\ (forall e, loads lib schema = Raise e ->
                      Plugin._api_instance self' = Plugin._api_instance self)
        /\ (forall api, loads lib schema = Ok api ->
                        Plugin._api_instance self'
                        = Some (fst (Plugin._setup_api_authentication lib
                                       (Plugin._api_config self) api)))).
Proof.
  unfold Plugin.setup. intros H.
  destruct (Plugin._perform_validation lib self) as [[|] error_message]; simpl.
  - destruct (Plugin.tag_first_operation (Plugin._api_schema self)) as [schema|e1].
    + destruct (loads lib schema) as [api|e2] eqn:El.
      * destruct (Plugin._setup_api_authentication lib (Plugin._api_config self) api)
          as [api' [u|e3]] eqn:Ea; [discriminate|].
        inversion H; subst. simpl.
        refine (conj eq_refl (conj eq_refl (conj eq_refl (conj _ (conj _ _))))).
        -- discriminate.
        -- discriminate.
        -- intros s _ Hs. inversion Hs; subst s.
           refine (conj eq_refl (conj _ _)).
           ++ intros e He. rewrite El in He. discriminate.
           ++ intros a Ha. rewrite El in Ha. inversion Ha; subst a.
              now rewrite Ea.
      * inversion H; subst. simpl.
        refine (conj eq_refl (conj eq_refl (conj eq_refl (conj _ (conj _ _))))).
        -- discriminate.
        -- discriminate.
        -- intros s _ Hs. inversion Hs; subst s.
           refine (conj eq_refl (conj _ _)).
           ++ reflexivity.
           ++ intros a Ha. rewrite El in Ha. discriminate.
    + inversion H; subst.
      refine (conj eq_refl (conj eq_refl (conj eq_refl (conj _ (conj _ _))))).
      * reflexivity.
      * reflexivity.
      * discriminate.
  - inversion H; subst.
    refine (conj eq_refl (conj eq_refl (conj eq_refl (conj _ (conj _ _))))).
    + reflexivity.
    + reflexivity.
    + discriminate.
Qed.

End Setup.

Lemma failed_setup_keeps_the_flag_witness :
  Plugin._is_setup_completed
    (fst (Plugin.setup rejecting_validator
            (Plugin.__init__ (Some one_post_schema) (Some token_config))))
  = false
  /\ fst (Plugin.setup rejecting_validator
            (Plugin.__init__ (Some one_post_schema) (Some token_config)))
     = Plugin.__init__ (Some one_post_schema) (Some token_config).
Proof.
  destruct (failed_setup_keeps_the_flag rejecting_validator
              (Plugin.__init__ (Some one_post_schema) (Some token_config))
              (fst (Plugin.setup rejecting_validator
                      (Plugin.__init__ (Some one_post_schema) (Some token_config))))
              "'token' is a required property" eq_refl)
    as (Hflag & _ & _ & Hval & _).
  split; [exact Hflag | exact (Hval eq_refl)].
Defined.

(** C5, as stated, fails. When the loader rejects the document, [setup]
    returns False and the stored schema has gained the operationId; when
    the authentication step raises, [setup] returns False and the API
    instance slot holds the new client. *)
Lemma failed_setup_leaves_mutations :
  (snd (Plugin.setup rejecting_loader
          (Plugin.__init__ (Some one_post_schema) (Some token_config)))
   = (false, "info: field required")
   /\ Plugin._api_schema
        (fst (Plugin.setup rejecting_loader
                (Plugin.__init__ (Some one_post_schema) (Some token_config))))
      = [("openapi", VStr "3.0.3");
         ("paths",
          VDict [("/predict",
                  VDict [("post",
                          VDict [("tags", VList []); ("operationId", VStr "predict_api")])])])]
   /\ Plugin._api_schema
        (fst (Plugin.setup rejecting_loader
                (Plugin.__init__ (Some one_post_schema) (Some token_config))))
      <> Plugin._api_schema (Plugin.__init__ (Some one_post_schema) (Some token_config)))
  /\ (snd (Plugin.setup (accepting bearer_api)
             (Plugin.__init__ (Some one_post_schema) (Some flat_config)))
      = (false, "'str' object has no attribute 'get'")
      /\ Plugin._api_instance
           (fst (Plugin.setup (accepting bearer_api)
                   (Plugin.__init__ (Some one_post_schema) (Some flat_config))))
         = Some bearer_api
      /\ Plugin._api_instance (Plugin.__init__ (Some one_post_schema) (Some flat_config))
         = None).
Proof.
  split; (split; [reflexivity | split; [reflexivity|]]).
  - vm_compute. discriminate.
  - reflexivity.
Qed.

(** ** Authentication *)

Lemma get_update_same {V : Type} (k : string) (v : V) (d : dict V) :
  get k (update k v d) = Some v.
Proof.
  induction d as [|[k' v'] d IH]; simpl.
  - now rewrite String.eqb_refl.
  - destruct (String.eqb k k') eqn:E; simpl.
    + now rewrite String.eqb_refl.
    + now rewrite E.
Qed.

Lemma get_update_other {V : Type} (k k' : string) (v : V) (d : dict V) :
  k <> k' -> get k (update k' v d) = get k d.
Proof.
  intros Hne. induction d as [|[k0 v0] d IH]; simpl.
  - destruct (String.eqb k k') eqn:E; [apply String.eqb_eq in E; contradiction | reflexivity].
  - destruct (String.eqb k' k0) eqn:E0; simpl.
    + apply String.eqb_eq in E0. subst k0.
      destruct (String.eqb k k') eqn:E; [apply String.eqb_eq in E; contradiction | reflexivity].
    + destruct (String.eqb k k0); [reflexivity | exact IH].
Qed.

Lemma get_in_nodup {V : Type} (k : string) (v : V) (d : dict V) :
  NoDup (keys d) -> In (k, v) d -> get k d = Some v.
Proof.
  induction d as [|[k0 v0] d IH]; simpl; intros Hnd Hin; [contradiction|].
  inversion Hnd as [|? ? Hnotin Hnd']; subst.
  destruct Hin as [Heq | Hin].
  - inversion Heq; subst. now rewrite String.eqb_refl.
  - destruct (String.eqb k k0) eqn:E.
    + apply String.eqb_eq in E. subst k0. exfalso. apply Hnotin.
      unfold keys. apply (in_map fst) in Hin. exact Hin.
    + apply IH; assumption.
Qed.

Section Authentication.

Variable lib : Collaborators.

Import OpenAPI.

Lemma authenticate_scheme_spec (config : dict value) (api : OpenAPI.t) (name : string)
    (s : SecurityScheme) :
  authentication_is_section config = true ->
  names_its_scheme s = true ->
  get name (securitySchemes api) = Some s ->
  Plugin.authenticate_scheme lib config api name = (registered lib config api name s, Ok tt).
Proof.
  unfold authentication_is_section, names_its_scheme, Plugin.authenticate_scheme,
    registered, credential_for, authentication_field.
  intros Hsec Hwf Hget. rewrite Hget.
  destruct (lower (type_ s) =? "http")%string; [|reflexivity].
  destruct (scheme_ s) as [sub|]; [|discriminate].
  destruct (get "authentication" config) as [[| | | | | |section]|]; try discriminate;
    simpl;
    (destruct (lower sub =? "bearer")%string; [reflexivity|]);
    (destruct (lower sub =? "basic")%string; reflexivity).
Qed.

Lemma registered_frame (config : dict value) (api : OpenAPI.t) (name : string)
    (s : SecurityScheme) :
  securitySchemes (registered lib config api name s) = securitySchemes api
  /\ predict_api (registered lib config api name s) = predict_api api
  /\ (forall k, k <> name ->
        get k (_security (registered lib config api name s)) = get k (_security api))
  /\ get name (_security (registered lib config api name s))
     = match credential_for lib config s with
       | Some c => Some c
       | None => get name (_security api)
       end.
Proof.
  unfold registered. destruct (credential_for lib config s) as [c|]; simpl.
  - repeat split.
    + intros k Hk. now apply get_update_other.
    + apply get_update_same.
  - repeat split.
Qed.

Lemma authenticate_schemes_spec (config : dict value) :
  authentication_is_section config = true ->
  forall (ks : list string) (api : OpenAPI.t),
    NoDup ks ->
    (forall k, In k ks ->
               exists s, get k (securitySchemes api) = Some s /\ names_its_scheme s = true) ->
    exists api',
      Plugin.authenticate_schemes lib config api ks = (api', Ok tt)
      /\ securitySchemes api' = securitySchemes api
      /\ predict_api api' = predict_api api
      /\ (forall k, ~ In k ks -> get k (_security api') = get k (_security api))
      /\ (forall k s, In k ks -> get k (securitySchemes api) = Some s ->
            get k (_security api')
            = match credential_for lib config s with
              | Some c => Some c
              | None => get k (_security api)
              end).
Proof.
  intros Hsec ks. induction ks as [|k ks IH]; intros api Hnd Hall.
  - exists api. simpl. repeat split; auto. intros k s [].
  - inversion Hnd as [|? ? Hnotin Hnd']; subst.
    destruct (Hall k (or_introl eq_refl)) as (s & Hget & Hwf).
    destruct (registered_frame config api k s) as (F1 & F2 & F3 & F4).
    destruct (IH (registered lib config api k s) Hnd') as (api' & Hrun & G1 & G2 & G3 & G4).
    { intros k' Hin. rewrite F1. apply Hall. now right. }
    exists api'. simpl. rewrite (authenticate_scheme_spec config api k s Hsec Hwf Hget).
    split; [exact Hrun|]. split; [now rewrite G1|]. split; [now rewrite G2|]. split.
    + intros k' Hk'. rewrite G3 by tauto. apply F3. intros ->. apply Hk'. now left.
    + intros k' s' [-> | Hin] Hget'.
      * rewrite Hget in Hget'. inversion Hget'; subst s'. rewrite G3 by assumption. exact F4.
      * rewrite (G4 k' s' Hin) by (now rewrite F1).
        assert (Hne : k' <> k) by (intros ->; contradiction).
        now rewrite (F3 k' Hne).
Qed.

Lemma non_section_lookup (config : dict value) (v : value) (k : string) (default : value) :
  get "authentication" config = Some v ->
  authentication_is_section config = false ->
  get_default v k default = Raise (no_attribute v "get").
Proof.
  unfold authentication_is_section. intros H. rewrite H.
  destruct v; intros Hs; try discriminate Hs; reflexivity.
Qed.

(** One turn of the loop, case by case. *)
Lemma authenticate_scheme_cases (config : dict value) (api : OpenAPI.t) (name : string)
    (s : SecurityScheme) :
  get name (securitySchemes api) = Some s ->
  (lower (type_ s) <> "http" ->
   Plugin.authenticate_scheme lib config api name = (api, Ok tt))
  /\ (lower (type_ s) = "http" -> scheme_ s = None ->
      Plugin.authenticate_scheme lib config api name
      = (api, Raise (Exn AttributeError "'NoneType' object has no attribute 'lower'")))
  /\ (forall sub,
        lower (type_ s) = "http" -> scheme_ s = Some sub ->
        lower sub <> "bearer" -> lower sub <> "basic" ->
        Plugin.authenticate_scheme lib config api name = (api, Ok tt))
  /\ (forall sub,
        lower (type_ s) = "http" -> scheme_ s = Some sub -> lower sub = "bearer" ->
        (authentication_is_section config = true ->
         Plugin.authenticate_scheme lib config api name
         = (authenticate api name
              (Token (Plugin.str_value lib (authentication_field config "token"))),
            Ok tt))
        /\ (forall v,
              get "authentication" config = Some v ->
              authentication_is_section config = false ->
              Plugin.authenticate_scheme lib config api name
              = (api, Raise (no_attribute v "get"))))
  /\ (forall sub,
        lower (type_ s) = "http" -> scheme_ s = Some sub -> lower sub = "basic" ->
        (authentication_is_section config = true ->
         Plugin.authenticate_scheme lib config api name
         = (authenticate api name
              (Pair (authentication_field config "username")
                    (authentication_field config "password")),
            Ok tt))
        /\ (forall v,
              get "authentication" config = Some v ->
              authentication_is_section config = false ->
              Plugin.authenticate_scheme lib config api name
              = (api, Raise (no_attribute v "get")))).
Proof.
  intros Hget. unfold Plugin.authenticate_scheme. rewrite Hget.
  refine (conj _ (conj _ (conj _ (conj _ _)))).
  - intros Ht. apply String.eqb_neq in Ht. now rewrite Ht.
  - intros Ht Hs. rewrite Ht, Hs. reflexivity.
  - intros sub Ht Hs Hb1 Hb2. rewrite Ht, Hs. simpl.
    apply String.eqb_neq in Hb1, Hb2. now rewrite Hb1, Hb2.
  - intros sub Ht Hs Hb. rewrite Ht, Hs, Hb. simpl. split.
    + intros Hsec. unfold authentication_is_section in Hsec.
      unfold authentication_field.
      destruct (get "authentication" config) as [[| | | | | |section]|];
        try discriminate; reflexivity.
    + intros v Hv Hsec. rewrite Hv.
      now rewrite (non_section_lookup config v "token" (VStr "") Hv Hsec).
  - intros sub Ht Hs Hb. rewrite Ht, Hs, Hb. simpl. split.
    + intros Hsec. unfold authentication_is_section in Hsec.
      unfold authentication_field.
      destruct (get "authentication" config) as [[| | | | | |section]|];
        try discriminate; reflexivity.
    + intros v Hv Hsec. rewrite Hv.
      now rewrite (non_section_lookup config v "username" (VStr "") Hv Hsec).
Qed.

(** A turn of the loop returns or raises AttributeError, and leaves the
    declared schemes as they are. *)
Lemma authenticate_scheme_outcome (config : dict value) (api : OpenAPI.t) (name : string)
    (s : SecurityScheme) :
  get name (securitySchemes api) = Some s ->
  securitySchemes (fst (Plugin.authenticate_scheme lib config api name)) = securitySchemes api
  /\ (snd (Plugin.authenticate_scheme lib config api name) = Ok tt
      \/ exists text,
           snd (Plugin.authenticate_scheme lib config api name)
           = Raise (Exn AttributeError text)).
Proof.
  intros Hget. unfold Plugin.authenticate_scheme. rewrite Hget.
  destruct (lower (type_ s) =? "http")%string; [|simpl; auto].
  destruct (scheme_ s) as [sub|].
  2:{ simpl. split; [reflexivity|]. right. eexists. reflexivity. }
  set (a := match get "authentication" config with
            | Some section => section
            | None => VDict []
            end).
  assert (Hlookup : forall k d,
            (exists x, get_default a k d = Ok x)
            \/ get_default a k d = Raise (no_attribute a "get")).
  { intros k d. destruct a; simpl; eauto. }
  destruct (lower sub =? "bearer")%string.
  - destruct (Hlookup "token" (VStr "")) as [[x Hx] | Hx]; rewrite Hx; simpl.
    + auto.
    + split; [reflexivity|]. right. eexists. reflexivity.
  - destruct (lower sub =? "basic")%string; [|simpl; auto].
    destruct (Hlookup "username" (VStr "")) as [[x Hx] | Hx]; rewrite Hx; simpl.
    + destruct (Hlookup "password" (VStr "")) as [[y Hy] | Hy]; rewrite Hy; simpl.
      * auto.
      * split; [reflexivity|]. right. eexists. reflexivity.
    + split; [reflexivity|]. right. eexists. reflexivity.
Qed.

(** With an authentication entry that is not a section, the loop raises
    as soon as it meets a bearer or basic scheme, if not before. *)
Lemma authenticate_schemes_raise (config : dict value) (v : value) :
  get "authentication" config = Some v ->
  authentication_is_section config = false ->
  forall (ks : list string) (api : OpenAPI.t),
    (forall k, In k ks -> exists s, get k (securitySchemes api) = Some s) ->
    (exists k s sub,
       In k ks /\ get k (securitySchemes api) = Some s
       /\ lower (type_ s) = "http" /\ scheme_ s = Some sub
       /\ (lower sub = "bearer" \/ lower sub = "basic")) ->
    exists text,
      snd (Plugin.authenticate_schemes lib config api ks) = Raise (Exn AttributeError text).
Proof.
  intros Hv Hsec ks. induction ks as [|a ks IH]; intros api Hall Hbad.
  - destruct Hbad as (k & _ & _ & [] & _).
  - destruct (Hall a (or_introl eq_refl)) as [sa Hsa].
    destruct (authenticate_scheme_outcome config api a sa Hsa) as [Hk Hout].
    simpl.
    destruct (Plugin.authenticate_scheme lib config api a) as [api1 [u|e]] eqn:Estep;
      simpl in Hk, Hout.
    + destruct Hbad as (k & s & sub & [Heq | Hin] & Hget & Ht & Hs & Hb).
      * exfalso. subst k.
        destruct (authenticate_scheme_cases config api a s Hget) as (_ & _ & _ & C4 & C5).
        destruct Hb as [Hb | Hb].
        -- rewrite (proj2 (C4 sub Ht Hs Hb) v Hv Hsec) in Estep. discriminate.
        -- rewrite (proj2 (C5 sub Ht Hs Hb) v Hv Hsec) in Estep. discriminate.
      * apply IH.
        -- intros k' Hk'. rewrite Hk. apply Hall. now right.
        -- exists k, s, sub. rewrite Hk. auto.
    + simpl. destruct Hout as [Hout | [text Hout]]; [discriminate|].
      exists text. exact Hout.
Qed.

(** C10 (amended). For every named entry of [components.securitySchemes]
    the loop of [_setup_api_authentication] does the following. A scheme
    whose type is not http, and an http scheme whose sub-scheme is neither
    bearer nor basic, is skipped: nothing is registered and nothing is
    raised. Under an http bearer scheme's name the token of
    [config.authentication] is registered as a string, and under an http
    basic scheme's name the pair of username and password, each the empty
    string when the section or the field is absent; this needs
    [config.authentication] to be absent or a section: when it is present
    and not a section (a string, null, ...) the lookup raises
    AttributeError, and so does an http scheme that names no sub-scheme.
    So, with distinct scheme names: when the authentication entry is
    absent or a section and every http scheme names its sub-scheme, the
    method returns with exactly these credentials registered and [setup]
    succeeds (a contract without security schemes included, where nothing
    changes); when the entry is not a section and a bearer or basic scheme
    is declared, the method raises AttributeError and [setup] returns
    False. *)
Theorem authentication_is_configured (self : Plugin.t) (api : OpenAPI.t) :
  NoDup (keys (securitySchemes api)) ->
  (forall name s,
     get name (securitySchemes api) = Some s ->
     (lower (type_ s) <> "http" ->
      Plugin.authenticate_scheme lib (Plugin._api_config self) api name = (api, Ok tt))
     /\ (lower (type_ s) = "http" -> scheme_ s = None ->
         Plugin.authenticate_scheme lib (Plugin._api_config self) api name
         = (api, Raise (Exn AttributeError "'NoneType' object has no attribute 'lower'")))
     /\ (forall sub,
           lower (type_ s) = "http" -> scheme_ s = Some sub ->
           lower sub <> "bearer" -> lower sub <> "basic" ->
           Plugin.authenticate_scheme lib (Plugin._api_config self) api name = (api, Ok tt))
     /\ (forall sub,
           lower (type_ s) = "http" -> scheme_ s = Some sub -> lower sub = "bearer" ->
           (authentication_is_section (Plugin._api_config self) = true ->
            Plugin.authenticate_scheme lib (Plugin._api_config self) api name
            = (authenticate api name
                 (Token (Plugin.str_value lib
                           (authentication_field (Plugin._api_config self) "token"))),
               Ok tt))
           /\ (forall v,
                 get "authentication" (Plugin._api_config self) = Some v ->
                 authentication_is_section (Plugin._api_config self) = false ->
                 Plugin.authenticate_scheme lib (Plugin._api_config self) api name
                 = (api, Raise (no_attribute v "get"))))
     /\ (forall sub,
           lower (type_ s) = "http" -> scheme_ s = Some sub -> lower sub = "basic" ->
           (authentication_is_section (Plugin._api_config self) = true ->
            Plugin.authenticate_scheme lib (Plugin._api_config self) api name
            = (authenticate api name
                 (Pair (authentication_field (Plugin._api_config self) "username")
                       (authentication_field (Plugin._api_config self) "password")),
               Ok tt))
           /\ (forall v,
                 get "authentication" (Plugin._api_config self) = Some v ->
                 authentication_is_section (Plugin._api_config self) = false ->
                 Plugin.authenticate_scheme lib (Plugin._api_config self) api name
                 = (api, Raise (no_attribute v "get")))))
  /\ (authentication_is_section (Plugin._api_config self) = true ->
      (forall name s, In (name, s) (securitySchemes api) -> names_its_scheme s = true) ->
      exists api',
        Plugin._setup_api_authentication lib (Plugin._api_config self) api = (api', Ok tt)
        /\ securitySchemes api' = securitySchemes api
        /\ predict_api api' = predict_api api
        /\ (forall name s sub,
              In (name, s) (securitySchemes api) ->
              lower (type_ s) = "http" -> scheme_ s = Some sub -> lower sub = "bearer" ->
              get name (_security api')
              = Some (Token (Plugin.str_value lib
                               (authentication_field (Plugin._api_config self) "token"))))
        /\ (forall name s sub,
              In (name, s) (securitySchemes api) ->
              lower (type_ s) = "http" -> scheme_ s = Some sub -> lower sub = "basic" ->
              get name (_security api')
              = Some (Pair (authentication_field (Plugin._api_config self) "username")
                           (authentication_field (Plugin._api_config self) "password")))
        /\ (forall name s sub,
              In (name, s) (securitySchemes api) ->
              lower (type_ s) = "http" -> scheme_ s = Some sub ->
              lower sub <> "bearer" -> lower sub <> "basic" ->
              get name (_security api') = get name (_security api))
        /\ (forall name s,
              In (name, s) (securitySchemes api) ->
              lower (type_ s) <> "http" ->
              get name (_security api') = get name (_security api))
        /\ (forall name,
              ~ In name (keys (securitySchemes api)) ->
              get name (_security api') = get name (_security api))
        /\ (forall schema,
              fst (Plugin._perform_validation lib self) = true ->
              Plugin.tag_first_operation (Plugin._api_schema self) = Ok schema ->
              loads lib schema = Ok api ->
              Plugin.setup lib self
              = (Plugin.mk true (Some api') (Plugin._api_instance_schema self) schema
                   (Plugin._api_config self),
                 (true, ""))))
  /\ (authentication_is_section (Plugin._api_config self) = false ->
      (exists name s sub,
         In (name, s) (securitySchemes api)
         /\ lower (type_ s) = "http" /\ scheme_ s = Some sub
         /\ (lower sub = "bearer" \/ lower sub = "basic")) ->
      exists text,
        snd (Plugin._setup_api_authentication lib (Plugin._api_config self) api)
        = Raise (Exn AttributeError text)
        /\ (forall schema,
              fst (Plugin._perform_validation lib self) = true ->
              Plugin.tag_first_operation (Plugin._api_schema self) = Ok schema ->
              loads lib schema = Ok api ->
              snd (Plugin.setup lib self) = (false, text)))
  /\ (forall k,
        get "authentication" (Plugin._api_config self) = None
        \/ (exists section,
              get "authentication" (Plugin._api_config self) = Some (VDict section)
              /\ get k section = None) ->
        authentication_field (Plugin._api_config self) k = VStr ""
        /\ Plugin.str_value lib (authentication_field (Plugin._api_config self) k) = "")
  /\ (forall k section v,
        get "authentication" (Plugin._api_config self) = Some (VDict section) ->
        get k section = Some v ->
        authentication_field (Plugin._api_config self) k = v)
  /\ (securitySchemes api = [] ->
      Plugin._setup_api_authentication lib (Plugin._api_config self) api = (api, Ok tt)).
Proof.
  intros Hnd.
  assert (Hkey : forall name s, In (name, s) (securitySchemes api) ->
                   In name (keys (securitySchemes api))).
  { intros name s Hin. unfold keys. now apply (in_map fst) in Hin. }
  refine (conj _ (conj _ (conj _ (conj _ (conj _ _))))).
  - intros name s Hget. exact (authenticate_scheme_cases _ api name s Hget).
  - intros Hsec Hwf.
    destruct (authenticate_schemes_spec (Plugin._api_config self) Hsec
                (keys (securitySchemes api)) api Hnd) as (api' & Hrun & G1 & G2 & G3 & G4).
    { intros k Hin. unfold keys in Hin. apply in_map_iff in Hin.
      destruct Hin as ([k0 s] & Hk & Hin). simpl in Hk. subst k0.
      exists s. split; [now apply get_in_nodup | now apply (Hwf k)]. }
    exists api'. split; [exact Hrun|]. split; [exact G1|]. split; [exact G2|].
    refine (conj _ (conj _ (conj _ (conj _ (conj _ _))))).
    + intros name s sub Hin Ht Hs Hb.
      rewrite (G4 name s (Hkey _ _ Hin) (get_in_nodup _ _ _ Hnd Hin)).
      unfold credential_for. rewrite Ht, Hs, Hb. reflexivity.
    + intros name s sub Hin Ht Hs Hb.
      rewrite (G4 name s (Hkey _ _ Hin) (get_in_nodup _ _ _ Hnd Hin)).
      unfold credential_for. rewrite Ht, Hs, Hb. reflexivity.
    + intros name s sub Hin Ht Hs Hb1 Hb2.
      rewrite (G4 name s (Hkey _ _ Hin) (get_in_nodup _ _ _ Hnd Hin)).
      unfold credential_for. rewrite Ht, Hs. simpl.
      apply String.eqb_neq in Hb1, Hb2. now rewrite Hb1, Hb2.
    + intros name s Hin Ht.
      rewrite (G4 name s (Hkey _ _ Hin) (get_in_nodup _ _ _ Hnd Hin)).
      unfold credential_for.
      destruct (lower (type_ s) =? "http")%string eqn:E; [|reflexivity].
      apply String.eqb_eq in E. contradiction.
    + exact G3.
    + intros schema Hv Ht Hl. unfold Plugin.setup.
      destruct (Plugin._perform_validation lib self) as [[|] msg]; [|discriminate].
      rewrite Ht, Hl. unfold Plugin._setup_api_authentication. rewrite Hrun. reflexivity.
  - intros Hsec (name & s & sub & Hin & Ht & Hs & Hb).
    assert (Hv : exists v, get "authentication" (Plugin._api_config self) = Some v).
    { unfold authentication_is_section in Hsec.
      destruct (get "authentication" (Plugin._api_config self)) as [v|];
        [eauto | discriminate]. }
    destruct Hv as [v Hv].
    destruct (authenticate_schemes_raise (Plugin._api_config self) v Hv Hsec
                (keys (securitySchemes api)) api) as [text Hraise].
    + intros k Hk. unfold keys in Hk. apply in_map_iff in Hk.
      destruct Hk as ([k0 s0] & Hk0 & Hin0). simpl in Hk0. subst k0.
      exists s0. now apply get_in_nodup.
    + exists name, s, sub. split; [exact (Hkey _ _ Hin)|].
      split; [now apply get_in_nodup | auto].
    + exists text. split; [exact Hraise|].
      intros schema Hval Htag Hl. unfold Plugin.setup.
      destruct (Plugin._perform_validation lib self) as [[|] msg]; [|discriminate].
      rewrite Htag, Hl. unfold Plugin._setup_api_authentication in *.
      destruct (Plugin.authenticate_schemes lib (Plugin._api_config self) api
                  (keys (securitySchemes api))) as [api' [u|e]]; simpl in Hraise.
      * discriminate.
      * inversion Hraise; subst e. reflexivity.
  - intros k [Hnone | (section & Hsome & Hk)]; unfold authentication_field.
    + rewrite Hnone. split; reflexivity.
    + rewrite Hsome, Hk. split; reflexivity.
  - intros k section v Hsome Hk. unfold authentication_field. now rewrite Hsome, Hk.
  - intros Hempty. unfold Plugin._setup_api_authentication. rewrite Hempty. reflexivity.
Qed.

End Authentication.

Lemma authentication_is_configured_witness :
  exists api',
    Plugin._setup_api_authentication (accepting four_schemes_api) token_config
      four_schemes_api
    = (api', Ok tt)
    /\ OpenAPI._security api'
       = [("digestAuth", OpenAPI.Token "kept");
          ("bearerAuth", OpenAPI.Token "secret");
          ("basicAuth", OpenAPI.Pair (VStr "") (VStr ""))]
    /\ get "bearerAuth" (OpenAPI._security api') = Some (OpenAPI.Token "secret")
    /\ get "digestAuth" (OpenAPI._security api') = Some (OpenAPI.Token "kept").
Proof.
  destruct (authentication_is_configured (accepting four_schemes_api)
              (Plugin.mk false None None one_post_schema token_config) four_schemes_api)
    as (_ & Hloop & _).
  - repeat constructor; simpl; intuition discriminate.
  - destruct Hloop as (api' & Hrun & _ & _ & Hbearer & _ & Hother & _).
    + reflexivity.
    + intros name s Hin. simpl in Hin.
      destruct Hin as [H | [H | [H | [H | []]]]]; inversion H; reflexivity.
    + exists api'. split; [exact Hrun|]. split; [|split].
      * vm_compute in Hrun. now inversion Hrun.
      * exact (Hbearer "bearerAuth" (OpenAPI.mkSecurityScheme "http" (Some "Bearer")) "Bearer"
                 (or_introl eq_refl) eq_refl eq_refl eq_refl).
      * refine (Hother "digestAuth" (OpenAPI.mkSecurityScheme "http" (Some "digest")) "digest"
                  _ eq_refl eq_refl _ _).
        -- simpl. auto.
        -- vm_compute. discriminate.
        -- vm_compute. discriminate.
Defined.

(** C10, as stated, fails: the lookup of the credentials can fail. With
    a bearer scheme declared and a configuration whose authentication
    entry is a string, or null, [.get] is called on that value and raises
    AttributeError, so [setup] returns False; an http scheme that names no
    sub-scheme makes [.lower()] raise on None in the same way. *)
Lemma credential_lookup_can_fail :
  snd (Plugin.setup (accepting bearer_api)
         (Plugin.__init__ (Some one_post_schema) (Some flat_config)))
  = (false, "'str' object has no attribute 'get'")
  /\ snd (Plugin.setup (accepting bearer_api)
            (Plugin.__init__ (Some one_post_schema) (Some null_config)))
     = (false, "'NoneType' object has no attribute 'get'")
  /\ Plugin._setup_api_authentication (accepting bearer_api) null_config bearer_api
     = (bearer_api, Raise (Exn AttributeError "'NoneType' object has no attribute 'get'"))
  /\ snd (Plugin.setup (accepting schemeless_api)
            (Plugin.__init__ (Some one_post_schema) (Some token_config)))
     = (false, "'NoneType' object has no attribute 'lower'").
Proof.
  repeat split.
Qed.

(** A contract without security schemes: nothing is registered and setup
    succeeds. *)
Lemma setup_without_security_schemes :
  Plugin.setup (accepting json_post_api)
    (Plugin.__init__ (Some one_post_schema) (Some token_config))
  = (Plugin.mk true (Some json_post_api) None
       [("openapi", VStr "3.0.3");
        ("paths",
         VDict [("/predict",
                 VDict [("post",
                         VDict [("tags", VList []); ("operationId", VStr "predict_api")])])])]
       token_config,
     (true, "")).
Proof. reflexivity. Qed.

Lemma init_keeps_both_arguments :
  Plugin.__init__ (Some one_post_schema) (Some token_config)
  = Plugin.mk false None None one_post_schema token_config
  /\ Plugin.__init__ (Some one_post_schema) None = Plugin.mk false None None [] []
  /\ Plugin.__init__ (Some one_post_schema) (Some []) = Plugin.mk false None None [] [].
Proof. repeat split. Qed.

(** * Further properties *)

(** ** The retry loop, case by case *)

Lemma failure_message_none_response (r : Response) :
  failure_message (Responded r) = None -> status_in_list (status_code r) = false.
Proof.
  simpl. destruct (status_in_list (status_code r)) eqn:E; [|reflexivity].
  destruct (status_in_list_named _ E) as [name Hn]. rewrite Hn. discriminate.
Qed.

(** Not the last attempt, a failure the except clause does not catch: the
    exception leaves the loop at once. *)
Lemma iteration_propagates (self : OpenAPICustomTransport.t) (attempt : Z)
    (error_message : string) (e : exn) (w : World) :
  attempt <> _api_retries self ->
  remote w (dispatched w) = Failed e ->
  failure_message (Failed e) = None ->
  iteration self attempt error_message w = (Raise e, dispatched_once w).
Proof.
  intros Hne Hr Hf. apply Z.eqb_neq in Hne.
  rewrite dispatched_once_eq.
  unfold iteration, bind, try_clauses, super_handle_async_request.
  world_cases w. rewrite Hr. destruct e as [cls msg]. simpl in *.
  destruct cls; simpl;
    try (unfold finally_clause; rewrite Hne; reflexivity).
  destruct (caught c); [discriminate|].
  simpl. unfold finally_clause. rewrite Hne. reflexivity.
Qed.

(** What one iteration does to the counters of the world. *)
Lemma iteration_frame (self : OpenAPICustomTransport.t) (attempt : Z)
    (error_message : string) (w : World) :
  _response_error_callback self = Plugin._notify_response_error ->
  dispatched (snd (iteration self attempt error_message w)) = S (dispatched w)
  /\ remote (snd (iteration self attempt error_message w)) = remote w
  /\ (attempt <> _api_retries self ->
      Plugin_response_error_message (snd (iteration self attempt error_message w))
      = Plugin_response_error_message w).
Proof.
  intros Hcb.
  destruct (Z.eq_dec attempt (_api_retries self)) as [Heq | Hne].
  - rewrite (iteration_last self attempt error_message w Hcb Heq).
    rewrite dispatched_once_eq. simpl. repeat split. contradiction.
  - destruct (failure_message (remote w (dispatched w))) as [m|] eqn:E.
    + rewrite (iteration_goes_on self attempt error_message m w Hne E).
      rewrite dispatched_once_eq. simpl. repeat split.
    + destruct (remote w (dispatched w)) as [r|e] eqn:Er.
      * rewrite (iteration_returns self attempt error_message r w Hne Er
                   (failure_message_none_response r E)).
        rewrite dispatched_once_eq. simpl. repeat split.
      * rewrite (iteration_propagates self attempt error_message e w Hne Er E).
        rewrite dispatched_once_eq. simpl. repeat split.
Qed.

Lemma attempts_cons (self : OpenAPICustomTransport.t) (attempt : Z) (rest : list Z)
    (error_message : string) (w : World) :
  attempts self (attempt :: rest) error_message w
  = match iteration self attempt error_message w with
    | (Ok (m, Returning response), w1) => (Ok (Some response), w1)
    | (Ok (m, _), w1) => attempts self rest m w1
    | (Raise e, w1) => (Raise e, w1)
    end.
Proof.
  simpl. unfold bind at 1.
  destruct (iteration self attempt error_message w) as [[[m p]|e] w1]; [|reflexivity].
  destruct p; reflexivity.
Qed.

Lemma attempts_frame (self : OpenAPICustomTransport.t) :
  _response_error_callback self = Plugin._notify_response_error ->
  forall (indices : list Z) (error_message : string) (w : World),
    (dispatched w <= dispatched (snd (attempts self indices error_message w))
     <= dispatched w + List.length indices)%nat
    /\ (indices <> [] ->
        (dispatched w < dispatched (snd (attempts self indices error_message w)))%nat)
    /\ remote (snd (attempts self indices error_message w)) = remote w.
Proof.
  intros Hcb indices.
  induction indices as [|attempt rest IH]; intros error_message w.
  - simpl. repeat split; try lia. intros H. now contradiction H.
  - rewrite attempts_cons.
    destruct (iteration_frame self attempt error_message w Hcb) as (Hd & Hr & _).
    destruct (iteration self attempt error_message w) as [[[m p]|e] w1]; simpl in Hd, Hr.
    + destruct p.
      * destruct (IH m w1) as (Hb & _ & Hrem). rewrite Hd in Hb. rewrite Hrem, Hr.
        simpl List.length. repeat split; lia.
      * simpl. rewrite Hd, Hr. repeat split; lia.
      * destruct (IH m w1) as (Hb & _ & Hrem). rewrite Hd in Hb. rewrite Hrem, Hr.
        simpl List.length. repeat split; lia.
    + simpl. rewrite Hd, Hr. repeat split; lia.
Qed.

(** X1. [handle_async_request] dispatches the request at least once and at
    most [_api_retries + 1] times, whatever the server does, and it leaves
    the server's behaviour as it found it. *)
Theorem dispatches_are_bounded (self : OpenAPICustomTransport.t) (w : World) :
  _response_error_callback self = Plugin._notify_response_error ->
  0 <= _api_retries self ->
  (dispatched w < dispatched (snd (handle_async_request self w))
   <= dispatched w + Z.to_nat (_api_retries self) + 1)%nat
  /\ remote (snd (handle_async_request self w)) = remote w.
Proof.
  intros Hcb Hn. unfold handle_async_request.
  destruct (attempts_frame self Hcb (range (_api_retries self + 1)) "" w) as (Hb & Hpos & Hr).
  assert (Hlen : List.length (range (_api_retries self + 1)) = S (Z.to_nat (_api_retries self))).
  { unfold range. rewrite length_map, length_seq. lia. }
  rewrite Hlen in Hb. split; [|exact Hr]. split; [|lia].
  apply Hpos. intros Hnil. rewrite Hnil in Hlen. discriminate.
Qed.

Lemma dispatches_are_bounded_witness :
  (0 < dispatched (snd (handle_async_request
                          (Plugin.custom_session_factory (initial_world (always 503 "")))
                          (initial_world (always 503 ""))))
   <= 4)%nat.
Proof.
  destruct (dispatches_are_bounded
              (Plugin.custom_session_factory (initial_world (always 503 "")))
              (initial_world (always 503 "")) eq_refl)
    as [[Hlow Hhigh] _].
  - vm_compute. discriminate.
  - split; [exact Hlow | exact Hhigh].
Defined.

Lemma attempts_returned (self : OpenAPICustomTransport.t) :
  _response_error_callback self = Plugin._notify_response_error ->
  forall (indices : list Z) (error_message : string) (w w' : World) (r : Response),
    attempts self indices error_message w = (Ok (Some r), w') ->
    status_in_list (status_code r) = false
    /\ (exists k, (k < List.length indices)%nat
                  /\ nth k indices 0 <> _api_retries self
                  /\ remote w (dispatched w + k) = Responded r
                  /\ dispatched w' = S (dispatched w + k))
    /\ Plugin_response_error_message w' = Plugin_response_error_message w.
Proof.
  intros Hcb indices.
  induction indices as [|attempt rest IH]; intros error_message w w' r H.
  - discriminate.
  - rewrite attempts_cons in H.
    destruct (Z.eq_dec attempt (_api_retries self)) as [Heq | Hne].
    { rewrite (iteration_last self attempt error_message w Hcb Heq) in H. discriminate. }
    destruct (failure_message (remote w (dispatched w))) as [m|] eqn:E.
    + rewrite (iteration_goes_on self attempt error_message m w Hne E) in H.
      destruct (advanced_step self attempt (status_of (remote w (dispatched w))) w)
        as (R1 & D1 & S1 & _).
      destruct (IH _ _ _ _ H) as (Hs & (k & Hk & Hidx & Hrn & Hd) & Hslot).
      split; [exact Hs|]. split.
      * exists (S k). rewrite R1, D1 in Hrn. rewrite D1 in Hd. simpl.
        replace (dispatched w + S k)%nat with (dispatched w + 1 + k)%nat by lia.
        repeat split; [lia | assumption..].
      * now rewrite Hslot, S1.
    + destruct (remote w (dispatched w)) as [r0|e] eqn:Er.
      * pose proof (failure_message_none_response r0 E) as Hs.
        rewrite (iteration_returns self attempt error_message r0 w Hne Er Hs) in H.
        inversion H; subst. split; [exact Hs|]. split.
        -- exists 0%nat. rewrite dispatched_once_eq, Nat.add_0_r. simpl.
           repeat split; [lia | assumption..].
        -- rewrite dispatched_once_eq. reflexivity.
      * rewrite (iteration_propagates self attempt error_message e w Hne Er E) in H.
        discriminate.
Qed.

Lemma nth_range (n : Z) (k : nat) :
  (k < Z.to_nat n)%nat -> nth k (range n) 0 = Z.of_nat k.
Proof.
  intros Hk. unfold range.
  change 0 with (Z.of_nat 0). rewrite map_nth, seq_nth by assumption. reflexivity.
Qed.

(** X2. A response that [handle_async_request] returns is one the server
    sent on the last dispatch of the call, unchanged; its status is not in
    429, 500, 502, 503, 504; it did not arrive on the attempt with index
    [_api_retries]; and the class-level error slot is what it was before
    the call. *)
Theorem returned_response_is_genuine
    (self : OpenAPICustomTransport.t) (w w' : World) (r : Response) :
  _response_error_callback self = Plugin._notify_response_error ->
  handle_async_request self w = (Ok (Some r), w') ->
  ~ In (status_code r) [429; 500; 502; 503; 504]
  /\ (exists k, 0 <= Z.of_nat k < _api_retries self
                /\ remote w (dispatched w + k) = Responded r
                /\ dispatched w' = S (dispatched w + k))
  /\ Plugin_response_error_message w' = Plugin_response_error_message w.
Proof.
  intros Hcb H.
  destruct (attempts_returned self Hcb _ _ _ _ _ H) as (Hs & (k & Hk & Hidx & Hrn & Hd) & Hslot).
  split; [|split; [|exact Hslot]].
  - rewrite <- status_in_list_iff, Hs. discriminate.
  - exists k. unfold range in Hk. rewrite length_map, length_seq in Hk.
    rewrite nth_range in Hidx by assumption.
    repeat split; try assumption; lia.
Qed.

Lemma returned_response_is_genuine_witness :
  ~ In 200 [429; 500; 502; 503; 504]
  /\ (exists k, 0 <= Z.of_nat k < 3
                /\ one_failure_then_ok (0 + k) = Responded (mkResponse 200 "prediction")
                /\ dispatched (snd (handle_async_request
                                      (Plugin.custom_session_factory
                                         (initial_world one_failure_then_ok))
                                      (initial_world one_failure_then_ok)))
                   = S (0 + k))
  /\ Plugin_response_error_message
       (snd (handle_async_request
               (Plugin.custom_session_factory (initial_world one_failure_then_ok))
               (initial_world one_failure_then_ok)))
     = "".
Proof.
  exact (returned_response_is_genuine
           (Plugin.custom_session_factory (initial_world one_failure_then_ok))
           (initial_world one_failure_then_ok)
           (snd (handle_async_request
                   (Plugin.custom_session_factory (initial_world one_failure_then_ok))
                   (initial_world one_failure_then_ok)))
           (mkResponse 200 "prediction") eq_refl eq_refl).
Defined.

(** ** The first outcome that is not retryable ends the call *)

(** X3. After [k] retryable failures, a response whose status is outside
    the list, on an attempt [k] before the last one, is returned as it is,
    after exactly [k + 1] dispatches and with the class-level error slot
    untouched. *)
Theorem good_response_ends_the_retries (self : OpenAPICustomTransport.t) (k : nat)
    (r : Response) (w : World) :
  0 <= _api_retries self ->
  Z.of_nat k < _api_retries self ->
  (forall i, (i < k)%nat -> failure_message (remote w (dispatched w + i)) <> None) ->
  remote w (dispatched w + k) = Responded r ->
  ~ In (status_code r) [429; 500; 502; 503; 504] ->
  fst (handle_async_request self w) = Ok (Some r)
  /\ dispatched (snd (handle_async_request self w)) = (dispatched w + S k)%nat
  /\ Plugin_response_error_message (snd (handle_async_request self w))
     = Plugin_response_error_message w.
Proof.
  intros Hn Hk Hfail Hr Hs.
  assert (Hs' : status_in_list (status_code r) = false).
  { destruct (status_in_list (status_code r)) eqn:E; [|reflexivity].
    exfalso. apply Hs. now apply status_in_list_iff. }
  destruct (response_returned_before_last self k r w Hn Hk Hfail Hr Hs')
    as (w' & Heq & _ & D & S & _).
  rewrite Heq. simpl. auto.
Qed.

Lemma good_response_ends_the_retries_witness :
  fst (handle_async_request (Plugin.custom_session_factory (initial_world one_failure_then_ok))
         (initial_world one_failure_then_ok))
  = Ok (Some (mkResponse 200 "prediction"))
  /\ dispatched (snd (handle_async_request
                        (Plugin.custom_session_factory (initial_world one_failure_then_ok))
                        (initial_world one_failure_then_ok)))
     = 2%nat
  /\ Plugin_response_error_message
       (snd (handle_async_request
               (Plugin.custom_session_factory (initial_world one_failure_then_ok))
               (initial_world one_failure_then_ok)))
     = "".
Proof.
  apply (good_response_ends_the_retries
           (Plugin.custom_session_factory (initial_world one_failure_then_ok)) 1
           (mkResponse 200 "prediction") (initial_world one_failure_then_ok)).
  - vm_compute. discriminate.
  - vm_compute. reflexivity.
  - intros i Hi. destruct i as [|i]; [vm_compute; discriminate | lia].
  - reflexivity.
  - simpl. intuition discriminate.
Defined.

(** X4. A failure that the except clause does not catch (any exception
    other than ConnectTimeout, ReadTimeout, NetworkError and its
    subclasses), on an attempt before the last one, is not retried: the
    exception reaches the caller after that dispatch, and the class-level
    error slot is untouched. *)
Theorem uncaught_failure_is_not_retried (self : OpenAPICustomTransport.t) (k : nat)
    (e : exn) (w : World) :
  0 <= _api_retries self ->
  Z.of_nat k < _api_retries self ->
  (forall i, (i < k)%nat -> failure_message (remote w (dispatched w + i)) <> None) ->
  remote w (dispatched w + k) = Failed e ->
  failure_message (Failed e) = None ->
  fst (handle_async_request self w) = Raise e
  /\ dispatched (snd (handle_async_request self w)) = (dispatched w + S k)%nat
  /\ Plugin_response_error_message (snd (handle_async_request self w))
     = Plugin_response_error_message w.
Proof.
  intros Hn Hk Hfail Hr Hf.
  unfold handle_async_request.
  rewrite (range_split (_api_retries self) k) by lia.
  destruct (attempts_skip self k 0%nat
              (Z.of_nat k :: map Z.of_nat (seq (S k) (Z.to_nat (_api_retries self) - k)))
              "" w) as (m & w1 & Heq & R1 & D1 & S1 & A1).
  - intros i Hi. simpl. lia.
  - assumption.
  - rewrite Heq, attempts_cons.
    rewrite (iteration_propagates self (Z.of_nat k) m e w1); [| lia | now rewrite R1, D1 | assumption].
    rewrite dispatched_once_eq. simpl. rewrite D1, S1. repeat split. lia.
Qed.

Lemma uncaught_failure_is_not_retried_witness :
  fst (handle_async_request (Plugin.custom_session_factory (initial_world always_write_timeout))
         (initial_world always_write_timeout))
  = Raise (Exn (HttpxError WriteTimeout) "write timed out")
  /\ dispatched (snd (handle_async_request
                        (Plugin.custom_session_factory (initial_world always_write_timeout))
                        (initial_world always_write_timeout)))
     = 1%nat
  /\ Plugin_response_error_message
       (snd (handle_async_request
               (Plugin.custom_session_factory (initial_world always_write_timeout))
               (initial_world always_write_timeout)))
     = "".
Proof.
  apply (uncaught_failure_is_not_retried
           (Plugin.custom_session_factory (initial_world always_write_timeout)) 0
           (Exn (HttpxError WriteTimeout) "write timed out")
           (initial_world always_write_timeout)).
  - vm_compute. discriminate.
  - vm_compute. reflexivity.
  - intros i Hi. lia.
  - reflexivity.
  - reflexivity.
Defined.

(** X5. With a negative number of retries the loop body never runs:
    [handle_async_request] returns None without dispatching the request,
    sleeping or storing anything. *)
Theorem negative_retries_send_nothing (self : OpenAPICustomTransport.t) (w : World) :
  _api_retries self < 0 ->
  handle_async_request self w = (Ok None, w).
Proof.
  intros Hn. unfold handle_async_request, range.
  replace (Z.to_nat (_api_retries self + 1)) with 0%nat by lia. reflexivity.
Qed.

Lemma negative_retries_send_nothing_witness :
  handle_async_request
    (OpenAPICustomTransport.__init__ false None (-1) 5 Plugin._notify_response_error)
    (initial_world (always 200 "prediction"))
  = (Ok None, initial_world (always 200 "prediction")).
Proof.
  apply negative_retries_send_nothing. vm_compute. reflexivity.
Defined.

(** ** The lock discipline of a whole request *)

(** X6. [make_requests], for every instance, every collaborator and every
    behaviour of the server, keeps the lock discipline: in the trace it
    adds, the error slot is only stored with the lock held, the lock is
    never held over a dispatch or a sleep, and it is free at the end. *)
Theorem make_requests_keeps_the_lock_discipline
    (lib : Collaborators) (self : Plugin.t) (w : World) :
  discipline (trace w) = Some false ->
  discipline (trace (snd (Plugin.make_requests lib self w))) = Some false.
Proof.
  intros H. rewrite make_requests_build.
  destruct (build lib self) as [self' [[[op params] data]|e]]; simpl; [|exact H].
  unfold Plugin.request.
  destruct (prepare lib op params data) as [u|e]; simpl; [|exact H].
  pose proof (handle_async_request_keeps_discipline
                (Plugin.custom_session_factory w) w eq_refl H) as Hd.
  destruct (handle_async_request (Plugin.custom_session_factory w) w)
    as [[[response|]|e] w1]; simpl in *.
  - destruct (process lib response); exact Hd.
  - exact Hd.
  - exact Hd.
Qed.

Lemma make_requests_keeps_the_lock_discipline_witness :
  discipline
    (trace (snd (Plugin.make_requests (accepting json_post_api) ready
                   (initial_world three_failures_then_ok))))
  = Some false.
Proof.
  apply make_requests_keeps_the_lock_discipline. reflexivity.
Defined.

(** ** The back-off in closed form *)




(** ** predict on requests that cannot be sent *)

(** X8. For an operation whose method is neither POST nor GET (compared
    in lower case), [predict] raises RuntimeError "Unexpected api method":
    nothing is dispatched, the error slot is not read, and the instance is
    unchanged. *)
Theorem unsupported_method_is_refused (lib : Collaborators) (self : Plugin.t)
    (op : OpenAPI.OperationRequest) (data : value) (w : World) :
  Plugin.the_predict_api self = Ok op ->
  lower (OpenAPI.method op) <> "post" ->
  lower (OpenAPI.method op) <> "get" ->
  Plugin.predict lib self data w
  = (Raise (Exn RuntimeError "Unexpected api method"), self, w).
Proof.
  intros Hop Hpost Hget.
  unfold Plugin.predict, Plugin.make_requests. rewrite Hop.
  apply String.eqb_neq in Hpost, Hget. rewrite Hpost, Hget. reflexivity.
Qed.

Lemma unsupported_method_is_refused_witness :
  Plugin.predict (accepting (method_api "PUT"))
    (Plugin.mk true (Some (method_api "PUT")) None [] []) VNone (initial_world (always 200 ""))
  = (Raise (Exn RuntimeError "Unexpected api method"),
     Plugin.mk true (Some (method_api "PUT")) None [] [],
     initial_world (always 200 "")).
Proof.
  apply (unsupported_method_is_refused (accepting (method_api "PUT"))
           (Plugin.mk true (Some (method_api "PUT")) None [] [])
           (OpenAPI.mkOperationRequest "PUT" (OpenAPI.mkOperation None) [])).
  - reflexivity.
  - vm_compute. discriminate.
  - vm_compute. discriminate.
Defined.

(** X9. [predict] does not look at the setup-completed flag: on an
    instance whose API instance slot is empty (a new instance, or one whose
    setup failed before the client was built) it raises AttributeError for
    the attribute [_] of None, with nothing dispatched, whatever the flag
    is. *)
Theorem predict_without_client_raises (lib : Collaborators) (self : Plugin.t)
    (data : value) (w : World) :
  Plugin._api_instance self = None ->
  Plugin.predict lib self data w
  = (Raise (Exn AttributeError "'NoneType' object has no attribute '_'"), self, w).
Proof.
  intros H. unfold Plugin.predict, Plugin.make_requests, Plugin.the_predict_api.
  rewrite H. reflexivity.
Qed.

Lemma predict_without_client_raises_witness :
  Plugin.predict (accepting json_post_api)
    (Plugin.__init__ (Some one_post_schema) (Some token_config)) VNone
    (initial_world (always 200 ""))
  = (Raise (Exn AttributeError "'NoneType' object has no attribute '_'"),
     Plugin.__init__ (Some one_post_schema) (Some token_config),
     initial_world (always 200 "")).
Proof.
  apply predict_without_client_raises. reflexivity.
Defined.

Lemma first_attempt_uncaught (self : OpenAPICustomTransport.t) (e : exn) (w : World) :
  0 < _api_retries self ->
  remote w (dispatched w) = Failed e ->
  failure_message (Failed e) = None ->
  handle_async_request self w = (Raise e, dispatched_once w).
Proof.
  intros Hn Hr Hf. unfold handle_async_request.
  rewrite (range_split (_api_retries self) 0) by lia.
  cbn [seq map app Z.of_nat]. rewrite attempts_cons.
  rewrite (iteration_propagates self 0 "" e w); [reflexivity | lia | assumption..].
Qed.

(** X10. When the first dispatch of a request fails with an exception the
    transport does not catch, and the library re-raises it as
    RequestError, [predict] raises RuntimeError whose message is whatever
    the class-level slot held before the call (the empty string in a new
    process, or the message of an earlier request): the text of the
    failure itself does not reach the caller, and the slot is not
    changed. *)
Theorem send_failure_surfaces_the_old_slot
    (lib : Collaborators) (self self' : Plugin.t) (data : value) (w : World)
    (op : OpenAPI.OperationRequest) (params : dict value) (body : option OpenAPI.Body)
    (e : exn) :
  build lib self = (self', Ok (op, params, body)) ->
  prepare lib op params body = Ok tt ->
  wraps_send_errors lib = true ->
  0 < Plugin_api_retries w ->
  remote w (dispatched w) = Failed e ->
  failure_message (Failed e) = None ->
  fst (fst (Plugin.predict lib self data w))
  = Raise (Exn RuntimeError (Plugin_response_error_message w))
  /\ Plugin_response_error_message (snd (Plugin.predict lib self data w))
     = Plugin_response_error_message w.
Proof.
  intros Hb Hp Hw Hn Hr Hf.
  unfold Plugin.predict. rewrite make_requests_build, Hb.
  unfold Plugin.request. rewrite Hp.
  rewrite (first_attempt_uncaught (Plugin.custom_session_factory w) e w Hn Hr Hf).
  unfold Plugin.send_error. rewrite Hw. simpl.
  rewrite dispatched_once_eq. simpl. split; reflexivity.
Qed.

Lemma send_failure_surfaces_the_old_slot_witness :
  fst (fst (Plugin.predict (accepting json_post_api) ready VNone
              (initial_world always_write_timeout)))
  = Raise (Exn RuntimeError "")
  /\ Plugin_response_error_message
       (snd (Plugin.predict (accepting json_post_api) ready VNone
               (initial_world always_write_timeout)))
     = "".
Proof.
  apply (send_failure_surfaces_the_old_slot (accepting json_post_api) ready
           (fst (build (accepting json_post_api) ready)) VNone
           (initial_world always_write_timeout)
           (OpenAPI.mkOperationRequest "post"
              (OpenAPI.mkOperation
                 (Some (OpenAPI.mkRequestBody
                          [("application/json",
                            OpenAPI.MediaType.mk (Some (OpenAPI.mkSchema "Features" None)))]
                          "{'application/json': MediaType}")))
              [])
           []
           (Some (OpenAPI.mkBody (OpenAPI.mkSchema "Features" None) Plugin.payload))
           (Exn (HttpxError WriteTimeout) "write timed out")).
  - reflexivity.
  - reflexivity.
  - reflexivity.
  - vm_compute. reflexivity.
  - reflexivity.
  - reflexivity.
Defined.

(** ** Tagging the first operation *)

Lemma update_update {V : Type} (k : string) (v1 v2 : V) (d : dict V) :
  update k v2 (update k v1 d) = update k v2 d.
Proof.
  induction d as [|[k' v'] d IH]; simpl.
  - now rewrite String.eqb_refl.
  - destruct (String.eqb k k') eqn:E; simpl.
    + now rewrite String.eqb_refl.
    + now rewrite E, IH.
Qed.

Lemma keys_update_present {V : Type} (k : string) (v v0 : V) (d : dict V) :
  get k d = Some v0 -> keys (update k v d) = keys d.
Proof.
  induction d as [|[k' v'] d IH]; simpl; [discriminate|].
  destruct (String.eqb k k') eqn:E; simpl.
  - intros _. apply String.eqb_eq in E. now subst.
  - intros H. now rewrite (IH H).
Qed.

(** The schema after tagging, when the document has a first operation. *)
Lemma tag_first_operation_tagged (schema : dict value) (first_path first_method : string)
    (op : dict value) (other_methods other_paths : dict value) :
  get "paths" schema
  = Some (VDict ((first_path, VDict ((first_method, VDict op) :: other_methods))
                 :: other_paths)) ->
  Plugin.tag_first_operation schema
  = Ok (update "paths"
          (VDict ((first_path,
                   VDict ((first_method,
                           VDict (update "operationId" (VStr "predict_api") op))
                          :: other_methods))
                  :: other_paths))
          schema).
Proof.
  intros H. unfold Plugin.tag_first_operation. rewrite H. reflexivity.
Qed.

(** When tagging returns and the document has no first operation, the
    schema is returned as it is. *)
Lemma tag_first_operation_cases (schema s1 : dict value) :
  Plugin.tag_first_operation schema = Ok s1 ->
  (first_operation schema = None /\ s1 = schema)
  \/ (exists first_path first_method op other_methods other_paths,
        get "paths" schema
        = Some (VDict ((first_path, VDict ((first_method, VDict op) :: other_methods))
                       :: other_paths))).
Proof.
  unfold Plugin.tag_first_operation, first_operation.
  destruct (get "paths" schema) as [p|]; [|discriminate].
  destruct p as [| | | |s|l|paths]; simpl; try discriminate.
  - destruct (0 <? Z.of_nat (String.length s)); [discriminate|].
    intros H. inversion H. now left.
  - destruct (0 <? Z.of_nat (List.length l)); [discriminate|].
    intros H. inversion H. now left.
  - destruct paths as [|[first_path item] other_paths]; simpl.
    + intros H. inversion H. now left.
    + destruct item as [| | | |s|l|methods]; simpl; try discriminate.
      * destruct (0 <? Z.of_nat (String.length s)); [discriminate|].
        intros H. inversion H. now left.
      * destruct (0 <? Z.of_nat (List.length l)); [discriminate|].
        intros H. inversion H. now left.
      * destruct methods as [|[first_method opv] other_methods]; simpl.
        -- intros H. inversion H. now left.
        -- destruct opv as [| | | | | |op]; try discriminate.
           intros _. right. now exists first_path, first_method, op, other_methods, other_paths.
Qed.

(** X11. When [setup]'s tagging step returns and the contract has a first
    operation, that operation (the first method of the first path) carries
    operationId "predict_api" afterwards, replacing an identifier it may
    have had; its other entries, the other methods, the other paths and
    every other top-level entry of the contract are what they were, in the
    same order. *)
Theorem tagging_marks_only_the_first_operation (schema s1 op : dict value) :
  Plugin.tag_first_operation schema = Ok s1 ->
  first_operation schema = Some op ->
  first_operation s1 = Some (update "operationId" (VStr "predict_api") op)
  /\ (exists tagged,
        first_operation s1 = Some tagged
        /\ get "operationId" tagged = Some (VStr "predict_api")
        /\ (forall k, k <> "operationId" -> get k tagged = get k op))
  /\ (forall k, k <> "paths" -> get k s1 = get k schema)
  /\ keys s1 = keys schema
  /\ (exists first_path first_method other_methods other_paths,
        get "paths" schema
        = Some (VDict ((first_path, VDict ((first_method, VDict op) :: other_methods))
                       :: other_paths))
        /\ get "paths" s1
           = Some (VDict ((first_path,
                           VDict ((first_method,
                                   VDict (update "operationId" (VStr "predict_api") op))
                                  :: other_methods))
                          :: other_paths))).
Proof.
  intros Ht Hop.
  destruct (tag_first_operation_cases schema s1 Ht)
    as [[Hnone _] | (fp & fm & op0 & om & ops & Hp)].
  { rewrite Hnone in Hop. discriminate. }
  assert (op0 = op).
  { unfold first_operation in Hop. rewrite Hp in Hop. now inversion Hop. }
  subst op0.
  rewrite (tag_first_operation_tagged schema fp fm op om ops Hp) in Ht.
  inversion Ht; subst s1. clear Ht.
  assert (Hfirst :
    first_operation
      (update "paths"
         (VDict ((fp, VDict ((fm, VDict (update "operationId" (VStr "predict_api") op)) :: om))
                 :: ops)) schema)
    = Some (update "operationId" (VStr "predict_api") op)).
  { unfold first_operation. now rewrite get_update_same. }
  split; [exact Hfirst|]. split; [|split; [|split]].
  - exists (update "operationId" (VStr "predict_api") op).
    split; [exact Hfirst|]. split; [apply get_update_same|].
    intros k Hk. now apply get_update_other.
  - intros k Hk. now apply get_update_other.
  - eapply keys_update_present. exact Hp.
  - exists fp, fm, om, ops. split; [exact Hp | apply get_update_same].
Qed.

Lemma tagging_marks_only_the_first_operation_witness :
  first_operation
    [("openapi", VStr "3.0.3");
     ("paths",
      VDict [("/predict",
              VDict [("post", VDict [("tags", VList []); ("operationId", VStr "predict_api")])])])]
  = Some (update "operationId" (VStr "predict_api") [("tags", VList [])]).
Proof.
  exact (proj1 (tagging_marks_only_the_first_operation one_post_schema
                  [("openapi", VStr "3.0.3");
                   ("paths",
                    VDict [("/predict",
                            VDict [("post",
                                    VDict [("tags", VList []);
                                           ("operationId", VStr "predict_api")])])])]
                  [("tags", VList [])] eq_refl eq_refl)).
Defined.

(** X12. Tagging is idempotent: applied to a schema it has returned, it
    returns that schema again, so a second [setup] on the same instance
    does not change the stored schema any further. *)
Theorem tagging_is_idempotent (lib : Collaborators) (self : Plugin.t) (s1 : dict value) :
  Plugin.tag_first_operation (Plugin._api_schema self) = Ok s1 ->
  Plugin.tag_first_operation s1 = Ok s1
  /\ (Plugin._api_schema (fst (Plugin.setup lib self)) = s1
      \/ Plugin._api_schema (fst (Plugin.setup lib self)) = Plugin._api_schema self)
  /\ (Plugin._api_schema (fst (Plugin.setup lib self)) = s1 ->
      Plugin._api_schema (fst (Plugin.setup lib (fst (Plugin.setup lib self)))) = s1).
Proof.
  intros Ht.
  assert (Hidem : Plugin.tag_first_operation s1 = Ok s1).
  { destruct (tag_first_operation_cases _ s1 Ht)
      as [[_ Heq] | (fp & fm & op & om & ops & Hp)].
    - subst s1. exact Ht.
    - rewrite (tag_first_operation_tagged _ fp fm op om ops Hp) in Ht.
      inversion Ht as [Hs1]. clear Ht.
      rewrite (tag_first_operation_tagged _ fp fm
                 (update "operationId" (VStr "predict_api") op) om ops)
        by apply get_update_same.
      now rewrite !update_update. }
  assert (Hsetup : forall self0 s,
            Plugin.tag_first_operation (Plugin._api_schema self0) = Ok s ->
            Plugin._api_schema (fst (Plugin.setup lib self0)) = s
            \/ Plugin._api_schema (fst (Plugin.setup lib self0)) = Plugin._api_schema self0).
  { intros self0 s Hs. unfold Plugin.setup.
    destruct (Plugin._perform_validation lib self0) as [[|] msg]; [|now right].
    rewrite Hs. destruct (loads lib s) as [api|e]; [|now left].
    destruct (Plugin._setup_api_authentication lib (Plugin._api_config self0) api)
      as [api' [u|e]]; now left. }
  split; [exact Hidem|]. split; [exact (Hsetup self s1 Ht)|].
  intros H1. destruct (Hsetup (fst (Plugin.setup lib self)) s1) as [H2 | H2].
  - now rewrite H1.
  - exact H2.
  - now rewrite H2.
Qed.

Lemma tagging_is_idempotent_witness :
  Plugin._api_schema (fst (Plugin.setup (accepting json_post_api) ready))
  = Plugin._api_schema ready.
Proof.
  refine (proj2 (proj2 (tagging_is_idempotent (accepting json_post_api)
                          (Plugin.__init__ (Some one_post_schema) (Some token_config))
                          (Plugin._api_schema ready) _)) _); reflexivity.
Defined.

(** ** When setup succeeds *)

(** X13. [setup] returns True exactly when the validation passes (which
    is what [is_supported] reports on the instance as it is before the
    call), the tagging step returns, the loader accepts the tagged document
    and the authentication step does not raise. Whenever these four hold,
    the result is True with the empty message, the flag set, the tagged
    schema stored and the client with its credentials in the instance
    slot. In every other case it returns False and the flag keeps its
    value. *)
Theorem setup_succeeds_exactly_when (lib : Collaborators) (self : Plugin.t) :
  (fst (snd (Plugin.setup lib self)) = true
   <-> exists schema api api',
         Plugin.is_supported lib self = true
         /\ Plugin.tag_first_operation (Plugin._api_schema self) = Ok schema
         /\ loads lib schema = Ok api
         /\ Plugin._setup_api_authentication lib (Plugin._api_config self) api = (api', Ok tt))
  /\ (forall schema api api',
        Plugin.is_supported lib self = true ->
        Plugin.tag_first_operation (Plugin._api_schema self) = Ok schema ->
        loads lib schema = Ok api ->
        Plugin._setup_api_authentication lib (Plugin._api_config self) api = (api', Ok tt) ->
        Plugin.setup lib self
        = (Plugin.mk true (Some api') (Plugin._api_instance_schema self) schema
             (Plugin._api_config self),
           (true, "")))
  /\ (fst (snd (Plugin.setup lib self)) = false ->
      Plugin._is_setup_completed (fst (Plugin.setup lib self))
      = Plugin._is_setup_completed self).
Proof.
  assert (Hsuff : forall schema api api',
            Plugin.is_supported lib self = true ->
            Plugin.tag_first_operation (Plugin._api_schema self) = Ok schema ->
            loads lib schema = Ok api ->
            Plugin._setup_api_authentication lib (Plugin._api_config self) api = (api', Ok tt) ->
            Plugin.setup lib self
            = (Plugin.mk true (Some api') (Plugin._api_instance_schema self) schema
                 (Plugin._api_config self),
               (true, ""))).
  { intros schema api api' Hv Ht Hl Ha. unfold Plugin.setup, Plugin.is_supported in *.
    destruct (Plugin._perform_validation lib self) as [[|] msg]; [|discriminate].
    now rewrite Ht, Hl, Ha. }
  split; [|split; [exact Hsuff|]].
  - split.
    + unfold Plugin.setup, Plugin.is_supported.
      destruct (Plugin._perform_validation lib self) as [[|] msg]; simpl; [|discriminate].
      destruct (Plugin.tag_first_operation (Plugin._api_schema self)) as [schema|e];
        [|discriminate].
      destruct (loads lib schema) as [api|e] eqn:El; [|discriminate].
      destruct (Plugin._setup_api_authentication lib (Plugin._api_config self) api)
        as [api' [[]|e]] eqn:Ea; [|discriminate].
      intros _. exists schema, api, api'. auto.
    + intros (schema & api & api' & Hv & Ht & Hl & Ha).
      now rewrite (Hsuff schema api api' Hv Ht Hl Ha).
  - unfold Plugin.setup.
    destruct (Plugin._perform_validation lib self) as [[|] msg]; simpl; [|reflexivity].
    destruct (Plugin.tag_first_operation (Plugin._api_schema self)) as [schema|e];
      [|reflexivity].
    destruct (loads lib schema) as [api|e]; [|reflexivity].
    destruct (Plugin._setup_api_authentication lib (Plugin._api_config self) api)
      as [api' [[]|e]]; [discriminate | reflexivity].
Qed.

(** X14. A contract without the key "paths" (the empty contract of an
    instance built without arguments, for one) makes [setup] fail with the
    message 'paths', the text of the KeyError, once the validation has
    passed; the instance is unchanged and the loader is not consulted. *)
Theorem setup_without_paths_fails (lib : Collaborators) (self : Plugin.t) :
  fst (Plugin._perform_validation lib self) = true ->
  get "paths" (Plugin._api_schema self) = None ->
  Plugin.setup lib self = (self, (false, "'paths'")).
Proof.
  intros Hv Hp. unfold Plugin.setup, Plugin.tag_first_operation.
  destruct (Plugin._perform_validation lib self) as [[|] msg]; [|discriminate].
  rewrite Hp. reflexivity.
Qed.

Lemma setup_without_paths_fails_witness :
  Plugin.setup (accepting json_post_api) (Plugin.__init__ None None)
  = (Plugin.__init__ None None, (false, "'paths'")).
Proof.
  apply setup_without_paths_fails; reflexivity.
Defined.

(** ** What the authentication step can change *)

Lemma authenticate_scheme_frame (lib : Collaborators) (config : dict value)
    (api : OpenAPI.t) (a : string) :
  OpenAPI.securitySchemes (fst (Plugin.authenticate_scheme lib config api a))
  = OpenAPI.securitySchemes api
  /\ OpenAPI.predict_api (fst (Plugin.authenticate_scheme lib config api a))
     = OpenAPI.predict_api api
  /\ (forall k,
        k <> a \/ get a (OpenAPI.securitySchemes api) = None ->
        get k (OpenAPI._security (fst (Plugin.authenticate_scheme lib config api a)))
        = get k (OpenAPI._security api)).
Proof.
  unfold Plugin.authenticate_scheme.
  destruct (get a (OpenAPI.securitySchemes api)) as [scheme|] eqn:Eg; [|simpl; auto].
  assert (Hset : forall c,
            OpenAPI.securitySchemes (OpenAPI.authenticate api a c) = OpenAPI.securitySchemes api
            /\ OpenAPI.predict_api (OpenAPI.authenticate api a c) = OpenAPI.predict_api api
            /\ (forall k, k <> a \/ Some scheme = None ->
                  get k (OpenAPI._security (OpenAPI.authenticate api a c))
                  = get k (OpenAPI._security api))).
  { intros c. simpl. repeat split. intros k [Hk | Hk]; [|discriminate].
    now apply get_update_other. }
  destruct (lower (OpenAPI.type_ scheme) =? "http")%string; [|simpl; auto].
  destruct (OpenAPI.scheme_ scheme) as [sub|]; [|simpl; auto].
  destruct (lower sub =? "bearer")%string.
  - destruct (get_default _ "token" (VStr "")); [apply Hset | simpl; auto].
  - destruct (lower sub =? "basic")%string; [|simpl; auto].
    destruct (get_default _ "username" (VStr "")); [|simpl; auto].
    destruct (get_default _ "password" (VStr "")); [apply Hset | simpl; auto].
Qed.

Lemma authenticate_schemes_frame (lib : Collaborators) (config : dict value) :
  forall (ks : list string) (api : OpenAPI.t),
    OpenAPI.securitySchemes (fst (Plugin.authenticate_schemes lib config api ks))
    = OpenAPI.securitySchemes api
    /\ OpenAPI.predict_api (fst (Plugin.authenticate_schemes lib config api ks))
       = OpenAPI.predict_api api
    /\ (forall k,
          ~ In k ks \/ get k (OpenAPI.securitySchemes api) = None ->
          get k (OpenAPI._security (fst (Plugin.authenticate_schemes lib config api ks)))
          = get k (OpenAPI._security api)).
Proof.
  induction ks as [|a ks IH]; intros api; [simpl; auto|].
  simpl.
  destruct (authenticate_scheme_frame lib config api a) as (F1 & F2 & F3).
  destruct (Plugin.authenticate_scheme lib config api a) as [api1 [u|e]]; simpl in *.
  - destruct (IH api1) as (G1 & G2 & G3).
    split; [now rewrite G1|]. split; [now rewrite G2|].
    intros k Hk. rewrite G3.
    + apply F3. destruct Hk as [Hk | Hk].
      * left. intros ->. apply Hk. now left.
      * destruct (string_dec k a) as [-> | Hne]; [now right | now left].
    + rewrite F1. destruct Hk as [Hk | Hk]; [left | now right].
      intros Hin. apply Hk. now right.
  - split; [exact F1|]. split; [exact F2|].
    intros k Hk. apply F3. destruct Hk as [Hk | Hk].
    + left. intros ->. apply Hk. now left.
    + destruct (string_dec k a) as [-> | Hne]; [now right | now left].
Qed.

(** X15. Whatever the configuration and the schemes are, and whether it
    raises or not, [_setup_api_authentication] leaves the client's security
    schemes and its operation as they were, and changes the credential
    registry only under names that [components.securitySchemes] declares. *)
Theorem authentication_touches_declared_schemes_only
    (lib : Collaborators) (config : dict value) (api : OpenAPI.t) :
  OpenAPI.securitySchemes (fst (Plugin._setup_api_authentication lib config api))
  = OpenAPI.securitySchemes api
  /\ OpenAPI.predict_api (fst (Plugin._setup_api_authentication lib config api))
     = OpenAPI.predict_api api
  /\ (forall k,
        get k (OpenAPI.securitySchemes api) = None ->
        get k (OpenAPI._security (fst (Plugin._setup_api_authentication lib config api)))
        = get k (OpenAPI._security api)).
Proof.
  unfold Plugin._setup_api_authentication.
  destruct (authenticate_schemes_frame lib config (keys (OpenAPI.securitySchemes api)) api)
    as (F1 & F2 & F3).
  split; [exact F1|]. split; [exact F2|].
  intros k Hk. apply F3. now right.
Qed.

(** ** The header loop *)

Lemma contains_update_same {V : Type} (k : string) (v : V) (d : dict V) :
  contains k (update k v d) = true.
Proof. unfold contains. now rewrite get_update_same. Qed.

Lemma contains_update_other {V : Type} (k k' : string) (v : V) (d : dict V) :
  k <> k' -> contains k (update k' v d) = contains k d.
Proof. intros H. unfold contains. now rewrite get_update_other. Qed.

(** X16. The header loop reads required header parameters only: query,
    path and cookie parameters and optional headers are skipped whatever
    their schema is (a missing schema or enumeration included), so a
    request without required headers always gets the empty header map. *)
Theorem header_loop_reads_required_headers_only
    (ps : list OpenAPI.Param.t) (headers : dict value) :
  Plugin.populate_headers ps headers
  = Plugin.populate_headers (filter is_required_header ps) headers
  /\ (filter is_required_header ps = [] -> Plugin.populate_headers ps headers = Ok headers).
Proof.
  assert (H : forall hs, Plugin.populate_headers ps hs
                         = Plugin.populate_headers (filter is_required_header ps) hs).
  { induction ps as [|p ps IH]; intros hs; [reflexivity|].
    simpl. unfold is_required_header at 1.
    destruct ((lower (OpenAPI.In_name (OpenAPI.Param.in_ p)) =? "header")%string
              && OpenAPI.Param.required p) eqn:E.
    - simpl. unfold is_required_header in E |- *. rewrite E.
      destruct (OpenAPI.Param.schema_ p) as [s|]; [|reflexivity].
      destruct (OpenAPI.enum s) as [[|v vs]|]; [apply IH | apply IH | reflexivity].
    - apply IH. }
  split; [apply H|]. intros Hnil. rewrite H, Hnil. reflexivity.
Qed.

(** X17. When every required header parameter has a schema with a
    non-empty enumeration, the header loop succeeds; the map it returns has
    an entry for each of them, keeps the entries it started with, and has
    no entry under any other name. *)
Theorem required_headers_are_all_set (ps : list OpenAPI.Param.t) (headers : dict value) :
  (forall p, In p ps -> is_required_header p = true ->
             exists s v vs,
               OpenAPI.Param.schema_ p = Some s /\ OpenAPI.enum s = Some (v :: vs)) ->
  exists result,
    Plugin.populate_headers ps headers = Ok result
    /\ (forall p, In p ps -> is_required_header p = true ->
                  contains (OpenAPI.Param.name p) result = true)
    /\ (forall k, contains k headers = true -> contains k result = true)
    /\ (forall k, contains k result = true ->
                  contains k headers = true
                  \/ exists p, In p ps /\ is_required_header p = true
                               /\ OpenAPI.Param.name p = k).
Proof.
  revert headers. induction ps as [|p ps IH]; intros headers Hall.
  - exists headers. simpl. repeat split; auto.
  - simpl. fold (is_required_header p).
    destruct (is_required_header p) eqn:E.
    + destruct (Hall p (or_introl eq_refl) E) as (s & v & vs & Hs & He).
      rewrite Hs, He.
      destruct (IH (update (OpenAPI.Param.name p) v headers)) as (result & Hr & H1 & H2 & H3).
      { intros q Hq. apply Hall. now right. }
      exists result. split; [exact Hr|]. split; [|split].
      * intros q [-> | Hq] Hreq; [apply H2, contains_update_same | now apply H1].
      * intros k Hk. apply H2.
        destruct (string_dec k (OpenAPI.Param.name p)) as [-> | Hne];
          [apply contains_update_same | now rewrite contains_update_other].
      * intros k Hk. destruct (H3 k Hk) as [Hin | (q & Hq & Hreq & Hname)].
        -- destruct (string_dec k (OpenAPI.Param.name p)) as [-> | Hne].
           ++ right. exists p. auto.
           ++ left. now rewrite contains_update_other in Hin.
        -- right. exists q. auto.
    + destruct (IH headers) as (result & Hr & H1 & H2 & H3).
      { intros q Hq. apply Hall. now right. }
      exists result. split; [exact Hr|]. split; [|split].
      * intros q [-> | Hq] Hreq; [congruence | now apply H1].
      * exact H2.
      * intros k Hk. destruct (H3 k Hk) as [Hin | (q & Hq & Hreq & Hname)];
          [now left | right; exists q; auto].
Qed.

Lemma required_headers_are_all_set_witness :
  exists result,
    Plugin.populate_headers
      [OpenAPI.Param.mk "page" OpenAPI.query true None;
       OpenAPI.Param.mk "X-Api-Version" OpenAPI.header true
         (Some (OpenAPI.mkSchema "version" (Some [VStr "v1"; VStr "v2"])));
       OpenAPI.Param.mk "X-Trace" OpenAPI.header false None]
      []
    = Ok result
    /\ contains "X-Api-Version" result = true.
Proof.
  destruct (required_headers_are_all_set
              [OpenAPI.Param.mk "page" OpenAPI.query true None;
               OpenAPI.Param.mk "X-Api-Version" OpenAPI.header true
                 (Some (OpenAPI.mkSchema "version" (Some [VStr "v1"; VStr "v2"])));
               OpenAPI.Param.mk "X-Trace" OpenAPI.header false None]
              []) as (result & Hr & Hin & _).
  - intros p [<- | [<- | [<- | []]]] Hreq; try discriminate.
    exists (OpenAPI.mkSchema "version" (Some [VStr "v1"; VStr "v2"])), (VStr "v1"), [VStr "v2"].
    split; reflexivity.
  - exists result. split; [exact Hr|].
    apply (Hin (OpenAPI.Param.mk "X-Api-Version" OpenAPI.header true
                  (Some (OpenAPI.mkSchema "version" (Some [VStr "v1"; VStr "v2"]))))).
    + right. now left.
    + reflexivity.
Defined.

(** ** The delimiter serializer *)

Import DelimiterSerializer.

Lemma detect_some (d : string) (supported : list (DelimiterType * string))
    (item : DelimiterType * string) :
  detect d supported = Some item -> In item supported /\ snd item = d.
Proof.
  induction supported as [|x rest IH]; simpl; [discriminate|].
  destruct (String.eqb d (snd x)) eqn:E.
  - intros H. inversion H; subst. apply String.eqb_eq in E. auto.
  - intros H. destruct (IH H). auto.
Qed.

Lemma detect_none (d : string) (supported : list (DelimiterType * string)) :
  detect d supported = None <-> ~ In d (map snd supported).
Proof.
  induction supported as [|x rest IH]; simpl.
  - split; auto.
  - destruct (String.eqb d (snd x)) eqn:E.
    + apply String.eqb_eq in E. split; [discriminate | intros H; exfalso; apply H; auto].
    + apply String.eqb_neq in E. rewrite IH. split.
      * intros H [H1 | H1]; [congruence | contradiction].
      * intros H H1. apply H. now right.
Qed.

(** X18. Whenever [deserialize_data] returns, the metadata holds the path
    it was given, the rows the reader produced from the whole file with the
    detected delimiter, and one of the six supported pairs (comma, tab,
    semicolon, pipe, space, colon) whose character is the delimiter the
    sniffer detected in the first 4096 characters of the file. *)
Theorem deserialized_data_has_a_supported_delimiter
    (env : Environment) (data_path : string) (m : DelimiterMetadata) :
  deserialize_data env data_path = Ok m ->
  path m = data_path
  /\ In (delimiter m)
        [(COMMA, ","); (TAB, tab); (SEMICOLON, ";"); (PIPE, "|"); (SPACE, " "); (COLON, ":")]
  /\ exists text_file,
       read_file env data_path = Ok text_file
       /\ sniff env (substring 0 4096 text_file) = Ok (snd (delimiter m))
       /\ reader env text_file (snd (delimiter m)) = Ok (data m).
Proof.
  unfold deserialize_data.
  destruct (read_file env data_path) as [text_file|e]; [|discriminate].
  destruct (sniff env (substring 0 4096 text_file)) as [d|e] eqn:Es; [|discriminate].
  destruct (detect d supported_separated_values_list) as [item|] eqn:Ed; [|discriminate].
  destruct (reader env text_file d) as [rows|e] eqn:Er; [|discriminate].
  intros H. inversion H; subst m. simpl.
  destruct (detect_some _ _ _ Ed) as [Hin Hd].
  split; [reflexivity|]. split; [exact Hin|].
  exists text_file. rewrite Hd. auto.
Qed.

Lemma deserialized_data_has_a_supported_delimiter_witness :
  path (mkDelimiterMetadata [["a,b;c"]] (COMMA, ",") "data.csv") = "data.csv"
  /\ In (COMMA, ",")
        [(COMMA, ","); (TAB, tab); (SEMICOLON, ";"); (PIPE, "|"); (SPACE, " "); (COLON, ":")].
Proof.
  destruct (deserialized_data_has_a_supported_delimiter
              (example_environment "data.csv" "a,b;c") "data.csv"
              (mkDelimiterMetadata [["a,b;c"]] (COMMA, ",") "data.csv") eq_refl)
    as (Hp & Hin & _).
  split; [exact Hp | exact Hin].
Defined.

(** X19. When the file can be read and the sniffer detects a delimiter
    that is none of comma, tab, semicolon, pipe, space and colon,
    [deserialize_data] raises ValueError "The delimiter is not supported.";
    when it detects one of the six, the outcome is the reader's: its
    exception, or the metadata with that delimiter. *)
Theorem unsupported_delimiter_is_refused
    (env : Environment) (data_path text_file d : string) :
  read_file env data_path = Ok text_file ->
  sniff env (substring 0 4096 text_file) = Ok d ->
  (~ In d [","; tab; ";"; "|"; " "; ":"] ->
   deserialize_data env data_path = Raise (Exn ValueError "The delimiter is not supported."))
  /\ (In d [","; tab; ";"; "|"; " "; ":"] ->
      exists ty,
        In (ty, d) supported_separated_values_list
        /\ deserialize_data env data_path
           = match reader env text_file d with
             | Ok rows => Ok (mkDelimiterMetadata rows (ty, d) data_path)
             | Raise e => Raise e
             end).
Proof.
  intros Hr Hs. unfold deserialize_data. rewrite Hr, Hs. split.
  - intros Hn.
    assert (Hd : detect d supported_separated_values_list = None)
      by (apply detect_none; exact Hn).
    now rewrite Hd.
  - intros Hin.
    destruct (detect d supported_separated_values_list) as [[ty c]|] eqn:Ed.
    + destruct (detect_some _ _ _ Ed) as [Hi Hc]. simpl in Hc. subst c.
      exists ty. split; [exact Hi | reflexivity].
    + apply detect_none in Ed. contradiction.
Qed.

Lemma unsupported_delimiter_is_refused_witness :
  deserialize_data (example_environment "data.txt" "a~b~c") "data.txt"
  = Raise (Exn ValueError "The delimiter is not supported.").
Proof.
  refine (proj1 (unsupported_delimiter_is_refused
                   (example_environment "data.txt" "a~b~c") "data.txt" "a~b~c" "~"
                   eq_refl eq_refl) _).
  simpl. intuition discriminate.
Defined.

(** ** An uncaught failure on the last attempt *)

(** X20. On the attempt with index [_api_retries], reached after retryable
    failures only, an exception the except clause does not catch does not
    reach the caller: the finally clause stores
    "Maximum retries exceeded (<_api_retries>) <message>" in the class-level
    slot and raises RuntimeError with it, where <message> is the text left
    by the attempt before (empty when there was none). *)
Theorem last_attempt_masks_an_uncaught_failure
    (self : OpenAPICustomTransport.t) (e : exn) (w : World) :
  _response_error_callback self = Plugin._notify_response_error ->
  0 <= _api_retries self ->
  (forall i, (i < Z.to_nat (_api_retries self))%nat ->
             failure_message (remote w (dispatched w + i)) <> None) ->
  remote w (dispatched w + Z.to_nat (_api_retries self)) = Failed e ->
  failure_message (Failed e) = None ->
  exists m,
    fst (handle_async_request self w)
    = Raise (Exn RuntimeError
               ("Maximum retries exceeded (" ++ str_int (_api_retries self) ++ ") " ++ m))
    /\ Plugin_response_error_message (snd (handle_async_request self w))
       = "Maximum retries exceeded (" ++ str_int (_api_retries self) ++ ") " ++ m
    /\ (_api_retries self = 0 -> m = "")
    /\ (0 < _api_retries self ->
        failure_message (remote w (dispatched w + (Z.to_nat (_api_retries self) - 1))) = Some m).
Proof.
  intros Hcb Hn Hfail Hr Hf.
  unfold handle_async_request.
  rewrite (range_split (_api_retries self) (Z.to_nat (_api_retries self))) by lia.
  rewrite Nat.sub_diag. cbn [seq map].
  assert (Hskip : forall j k msg w0,
            (forall i, (i < j)%nat -> Z.of_nat (k + i) <> _api_retries self) ->
            (forall i, (i < j)%nat -> failure_message (remote w0 (dispatched w0 + i)) <> None) ->
            exists m w',
              attempts self (map Z.of_nat (seq k j) ++ [_api_retries self])%list msg w0
              = attempts self [_api_retries self] m w'
              /\ advanced w0 w' j
              /\ (j = 0%nat -> m = msg)
              /\ ((0 < j)%nat ->
                  failure_message (remote w0 (dispatched w0 + (j - 1))) = Some m)).
  { induction j as [|j IH]; intros k msg w0 Hidx Hall.
    - exists msg, w0. split; [reflexivity|]. split; [apply advanced_refl|].
      split; [reflexivity | lia].
    - destruct (failure_message (remote w0 (dispatched w0))) as [m0|] eqn:E0.
      2:{ exfalso. apply (Hall 0%nat); [lia|]. now rewrite Nat.add_0_r. }
      assert (Hk : Z.of_nat k <> _api_retries self).
      { specialize (Hidx 0%nat). rewrite Nat.add_0_r in Hidx. apply Hidx. lia. }
      destruct (advanced_step self (Z.of_nat k) (status_of (remote w0 (dispatched w0))) w0)
        as (R1 & D1 & S1 & A1).
      destruct (IH (S k) m0
                  (snd (emit (Sleep (backoff_timing self (Z.of_nat k)
                                       (status_of (remote w0 (dispatched w0)))))
                          (dispatched_once w0))))
        as (m & w' & Heq & Hadv & Hz & Hp).
      + intros i Hi. replace (S k + i)%nat with (k + S i)%nat by lia. apply Hidx. lia.
      + intros i Hi. rewrite R1, D1.
        replace (dispatched w0 + 1 + i)%nat with (dispatched w0 + S i)%nat by lia.
        apply Hall. lia.
      + exists m, w'. split; [|split; [|split]].
        * cbn [seq map app]. rewrite attempts_cons.
          rewrite (iteration_goes_on self (Z.of_nat k) msg m0 w0 Hk E0). exact Heq.
        * replace (S j) with (1 + j)%nat by lia.
          eapply advanced_trans; [|exact Hadv]. unfold advanced. auto.
        * discriminate.
        * intros _. destruct j as [|j].
          -- rewrite (Hz eq_refl). simpl. now rewrite Nat.add_0_r.
          -- rewrite R1, D1 in Hp.
             replace (dispatched w0 + (S (S j) - 1))%nat
               with (dispatched w0 + 1 + (S j - 1))%nat by lia.
             apply Hp. lia. }
  rewrite Z2Nat.id by assumption.
  destruct (Hskip (Z.to_nat (_api_retries self)) 0%nat "" w) as (m & w1 & Heq & Hadv & Hz & Hp).
  - intros i Hi. simpl. lia.
  - assumption.
  - destruct Hadv as (R1 & D1 & _).
    rewrite Heq, attempts_cons.
    rewrite (iteration_last self _ m w1 Hcb eq_refl).
    rewrite R1, D1, Hr. unfold message_after. rewrite Hf.
    exists m. split; [reflexivity|]. split; [|split].
    + rewrite dispatched_once_eq. reflexivity.
    + intros H0. apply Hz. rewrite H0. reflexivity.
    + intros Hpos. apply Hp. lia.
Qed.

Lemma last_attempt_masks_an_uncaught_failure_witness :
  exists m,
    fst (handle_async_request
           (OpenAPICustomTransport.__init__ false None 0 5 Plugin._notify_response_error)
           (initial_world always_write_timeout))
    = Raise (Exn RuntimeError ("Maximum retries exceeded (" ++ str_int 0 ++ ") " ++ m))
    /\ m = "".
Proof.
  destruct (last_attempt_masks_an_uncaught_failure
              (OpenAPICustomTransport.__init__ false None 0 5 Plugin._notify_response_error)
              (Exn (HttpxError WriteTimeout) "write timed out")
              (initial_world always_write_timeout))
    as (m & Hr & _ & Hz & _).
  - reflexivity.
  - vm_compute. discriminate.
  - intros i Hi. change (Z.to_nat _) with 0%nat in Hi. lia.
  - reflexivity.
  - reflexivity.
  - exists m. split; [exact Hr | exact (Hz eq_refl)].
Defined.
